(** * AI teaching assistant (WhatsApp edition): a shallow embedding

    The repository holds two variants of one bot:
    - [main.py] keeps one Gemini chat object per sender in the module-level
      dictionary [chat_pool];
    - [main-adk-inmemoryserssionservice.py] delegates the conversation to an
      ADK [Runner] backed by an [InMemorySessionService].

    Both read a course plan and a roster from a spreadsheet, push a daily
    summary to every student of today's class and answer private inbound
    messages.  The spreadsheet, the WhatsApp client and the language model are
    external collaborators; they are modelled as oracles of an environment
    that may answer every call with a value or with a raised exception.  The
    code of the two files is embedded as functions of a small state-and-
    exception monad whose state carries the trace of external calls. *)

From Stdlib Require Import List NArith ZArith Lia Bool String Ascii DecimalString.
From stdpp Require Import gmap list.
Import ListNotations.

Local Open Scope N_scope.

(** ** Python strings

    A Python [str] is a sequence of Unicode code points. *)

Abbreviation pystr := (list N).

(** Literals are written as Rocq strings (UTF-8 bytes) and decoded. *)
Fixpoint utf8_decode (bs : list N) : pystr :=
  match bs with
  | [] => []
  | b0 :: r0 =>
      if b0 <? 128 then b0 :: utf8_decode r0
      else
        match r0 with
        | [] => []
        | b1 :: r1 =>
            if b0 <? 224 then ((b0 - 192) * 64 + (b1 - 128)) :: utf8_decode r1
            else
              match r1 with
              | [] => []
              | b2 :: r2 =>
                  if b0 <? 240
                  then ((b0 - 224) * 4096 + (b1 - 128) * 64 + (b2 - 128))
                         :: utf8_decode r2
                  else
                    match r2 with
                    | [] => []
                    | b3 :: r3 =>
                        ((b0 - 240) * 262144 + (b1 - 128) * 4096
                         + (b2 - 128) * 64 + (b3 - 128)) :: utf8_decode r3
                    end
              end
        end
  end.

Definition lit (s : string) : pystr :=
  utf8_decode (map N_of_ascii (list_ascii_of_string s)).
Arguments lit : simpl never.

Definition nl : pystr := [10].
Definition dq : pystr := [34].
Definition plus_sign : N := 43.

(** [str.isspace] on one code point (CPython's [_PyUnicode_IsWhitespace]). *)
Definition isspace (c : N) : bool :=
  ((9 <=? c) && (c <=? 13)) || ((28 <=? c) && (c <=? 32))
  || (c =? 133) || (c =? 160) || (c =? 5760)
  || ((8192 <=? c) && (c <=? 8202))
  || (c =? 8232) || (c =? 8233) || (c =? 8239) || (c =? 8287) || (c =? 12288).

(** [s.lstrip(chars)]: drop the longest prefix made of characters of [chars]. *)
Fixpoint lstrip_by (p : N -> bool) (s : pystr) : pystr :=
  match s with
  | [] => []
  | c :: r => if p c then lstrip_by p r else s
  end.

Definition rstrip_by (p : N -> bool) (s : pystr) : pystr :=
  rev (lstrip_by p (rev s)).

Definition lstrip (chars s : pystr) : pystr :=
  lstrip_by (fun c => existsb (N.eqb c) chars) s.

(** [s.strip()] with no argument strips whitespace at both ends. *)
Definition strip (s : pystr) : pystr := rstrip_by isspace (lstrip_by isspace s).

(** [sep.join(parts)] *)
Fixpoint join (sep : pystr) (parts : list pystr) : pystr :=
  match parts with
  | [] => []
  | [p] => p
  | p :: ps => p ++ sep ++ join sep ps
  end.

(** ** Python values read from a sheet

    [get_all_records] returns one dictionary per row, keyed by the header
    row; a cell is a string or, when it looks like a number, an integer.
    [dict.get] answers [None] for an absent key. *)

Inductive pyval :=
| VNone
| VStr (s : pystr)
| VInt (z : Z).

#[global] Instance pyval_eq_dec : EqDecision pyval.
Proof. solve_decision. Defined.

(** [str(v)] *)
Definition py_str (v : pyval) : pystr :=
  match v with
  | VNone => lit "None"
  | VStr s => s
  | VInt z => map N_of_ascii (list_ascii_of_string (NilZero.string_of_int (Z.to_int z)))
  end.

(** [a == b] on these values: equal type and equal content. *)
Definition py_eq (a b : pyval) : bool := bool_decide (a = b).

Abbreviation row := (gmap (list N) pyval).

(** [row.get(key)] *)
Definition row_get (r : row) (key : pystr) : pyval := default VNone (r !! key).

(** ** Exceptions

    Every exception of the model is an instance of Python's [Exception], so
    [except Exception] catches it. *)

Inductive exn_class :=
  KeyError | IndexError | TypeError | AttributeError | ValueError | ServiceError.

Record exn := Exn { exn_cls : exn_class; exn_msg : pystr }.

(** [str(e)], as interpolated by the log lines. *)
Definition exn_str (e : exn) : pystr := exn_msg e.

Inductive outcome (A : Type) :=
| Ret (a : A)
| Exc (e : exn).
Arguments Ret {A} a.
Arguments Exc {A} e.

(** [row[key]] *)
Definition row_item (r : row) (key : pystr) : outcome pyval :=
  match r !! key with
  | Some v => Ret v
  | None => Exc (Exn KeyError (lit "'" ++ key ++ lit "'"))
  end.

(** ** External calls, their trace and the environment

    Every call that leaves the process is recorded, in order, in a trace.
    The environment answers a call from the trace so far, so the same call
    may succeed once and fail later. *)

Inductive effect :=
| EAuthorize                                   (* gspread.authorize(creds) *)
| ERead (sheet : pystr)                        (* open_by_key(..).worksheet(sheet).get_all_records() *)
| ESendText (jid body : pystr)                 (* client.sendText(jid, body) *)
| EReply (jid text id : pystr)                 (* client.reply(jid, text, id) *)
| EStartChat (chat : nat) (prompt : pystr)     (* GenerativeModel(..).start_chat(history=..) *)
| ESendMessage (chat : nat) (text : pystr)     (* chat.send_message(text, ..).text *)
| ECreateSession (jid : pystr) (st : list (pystr * pyval))
                                               (* session_service.create_session(..) *)
| EGetSession (jid : pystr)                    (* session_service.get_session(..) *)
| ERunnerRun (jid text : pystr)                (* runner.run(user_id, session_id, new_message) *)
| EPrint (line : pystr).                       (* print(line) *)

(** One event yielded by [runner.run]: [is_final_response()], and the texts of
    [content.parts] when [content] is set. *)
Record run_event := RunEvent {
  is_final_response : bool;
  content : option (list pystr)
}.

(** The generator returned by [runner.run] yields events and may raise while it
    is being iterated. *)
Inductive run_step :=
| Yield (ev : run_event)
| Raise (e : exn).

(** One turn of a chat's history as [format_history] reads it: the role,
    "user" or "model", and the texts of the parts. *)
Inductive role :=
| User
| Model.

Record turn := Turn {
  turn_role : role;
  turn_parts : list pystr
}.

Record env := Env {
  today : pystr;                               (* datetime.now().strftime("%Y-%m-%d") *)
  COURSE_SHEET : pystr;
  STUDENT_SHEET : pystr;
  authorize : list effect -> option exn;
  get_all_records : list effect -> pystr -> outcome (list row);
  sendText : list effect -> pystr -> pystr -> option exn;
  reply : list effect -> pystr -> pystr -> pystr -> option exn;
  send_message : list effect -> nat -> pystr -> outcome pystr;
  create_session : list effect -> pystr -> option exn;
  get_session : list effect -> pystr -> option exn;
  runner_run : list effect -> pystr -> pystr -> list run_step;
  chat_history : list effect -> nat -> list turn;  (* chat.history of a chat object *)
  session_str : list effect -> pystr -> pystr      (* str() of the session of a user *)
}.

(** The state of the process: the trace, and (in [main.py]) the chat pool with
    the number of chat objects created so far, which names the next one. *)
Record state := State {
  trace : list effect;
  chat_pool : gmap (list N) nat;
  chats_made : nat
}.

Definition emit (x : effect) (st : state) : state :=
  State (trace st ++ [x]) (chat_pool st) (chats_made st).

(** ** The monad of the embedding

    A computation returns a value or raises, and in both cases leaves a
    state: what a Python function did before it raised stays done. *)

Definition M (A : Type) : Type := state -> outcome A * state.

Definition ret {A} (a : A) : M A := fun st => (Ret a, st).
Definition raise {A} (e : exn) : M A := fun st => (Exc e, st).

Definition bind {A B} (m : M A) (k : A -> M B) : M B :=
  fun st =>
    match m st with
    | (Ret a, st') => k a st'
    | (Exc e, st') => (Exc e, st')
    end.

(** [try: m  except Exception as e: h e] *)
Definition try_except {A} (m : M A) (h : exn -> M A) : M A :=
  fun st =>
    match m st with
    | (Ret a, st') => (Ret a, st')
    | (Exc e, st') => h e st'
    end.

Definition lift {A} (o : outcome A) : M A := fun st => (o, st).

Declare Scope py_scope.
Delimit Scope py_scope with py.
Notation "x <- m ;; k" := (bind m (fun x => k))
  (at level 100, m at next level, right associativity) : py_scope.
Notation "m ;;; k" := (bind m (fun _ => k))
  (at level 100, right associativity) : py_scope.
Local Open Scope py_scope.

(** [for x in l: body x] *)
Fixpoint for_each {A} (l : list A) (body : A -> M unit) : M unit :=
  match l with
  | [] => ret tt
  | x :: r => body x ;;; for_each r body
  end.

(** An external call that returns nothing: record it, then succeed or raise. *)
Definition call (x : effect) (answer : list effect -> option exn) : M unit :=
  fun st =>
    match answer (trace st) with
    | None => (Ret tt, emit x st)
    | Some e => (Exc e, emit x st)
    end.

(** An external call that returns a value. *)
Definition ask {A} (x : effect) (answer : list effect -> outcome A) : M A :=
  fun st => (answer (trace st), emit x st).

Definition print (line : pystr) : M unit := fun st => (Ret tt, emit (EPrint line) st).

(** What a library call returns when it does not raise. *)
Definition returning {A} (o : option exn) (a : A) : outcome A :=
  match o with
  | None => Ret a
  | Some e => Exc e
  end.

(** Reading the state of a library object, which is no external call. *)
Definition observe {A} (read : list effect -> A) : M A :=
  fun st => (Ret (read (trace st)), st).

Definition obind {A B} (o : outcome A) (k : A -> outcome B) : outcome B :=
  match o with
  | Ret a => k a
  | Exc e => Exc e
  end.

(** ** [str.format] with keyword arguments

    The format string is read left to right.  [{{] and [}}] stand for one
    brace, [{NAME}] is replaced by the keyword argument [NAME] formatted
    with an empty specification, which is [str(value)] for the values of this
    program.  Conversions ([!r]), format
    specifications ([:>8]) and attribute or index lookups are outside the
    fragment; the templates of the repository use none (lemma
    [templates_scan] below). *)

Definition lbrace : N := 123.
Definition rbrace : N := 125.

Abbreviation kwargs := (list (pystr * pyval)).

Fixpoint kw_lookup (kw : kwargs) (name : pystr) : option pyval :=
  match kw with
  | [] => None
  | (k, v) :: rest => if bool_decide (k = name) then Some v else kw_lookup rest name
  end.

Definition is_digit (c : N) : bool := (48 <=? c) && (c <=? 57).

(** The value of one replacement field. *)
Definition format_field (kw : kwargs) (name : pystr) : outcome pystr :=
  if forallb is_digit name
  then Exc (Exn IndexError (lit "Replacement index out of range for positional args tuple"))
  else
    match kw_lookup kw name with
    | Some v => Ret (py_str v)
    | None => Exc (Exn KeyError (lit "'" ++ name ++ lit "'"))
    end.

(** [fld] is [Some acc] while the characters of a field name are collected. *)
Fixpoint format_from (kw : kwargs) (fld : option pystr) (s : pystr) : outcome pystr :=
  match fld, s with
  | None, [] => Ret []
  | None, c :: r =>
      if c =? lbrace then
        match r with
        | [] => Exc (Exn ValueError (lit "Single '{' encountered in format string"))
        | c' :: r' =>
            if c' =? lbrace
            then obind (format_from kw None r') (fun t => Ret (lbrace :: t))
            else format_from kw (Some []) r
        end
      else if c =? rbrace then
        match r with
        | [] => Exc (Exn ValueError (lit "Single '}' encountered in format string"))
        | c' :: r' =>
            if c' =? rbrace
            then obind (format_from kw None r') (fun t => Ret (rbrace :: t))
            else Exc (Exn ValueError (lit "Single '}' encountered in format string"))
        end
      else obind (format_from kw None r) (fun t => Ret (c :: t))
  | Some acc, [] => Exc (Exn ValueError (lit "expected '}' before end of string"))
  | Some acc, c :: r =>
      if c =? rbrace then
        obind (format_field kw acc)
              (fun v => obind (format_from kw None r) (fun t => Ret (v ++ t)))
      else if c =? lbrace then
        Exc (Exn ValueError (lit "unexpected '{' in field name"))
      else format_from kw (Some (acc ++ [c])) r
  end.

(** [tmpl.format] applied to the keyword arguments [kw] *)
Definition py_format (tmpl : pystr) (kw : kwargs) : outcome pystr :=
  format_from kw None tmpl.

(** ** The sheets reader (the same code in both files) *)

Record lesson := Lesson {
  topic : pyval;
  clas : pyval;
  teacher : pyval;
  subject : pyval
}.

Record student := Student {
  name : pyval;
  phone : pystr
}.

(** The loop of [today_topic]: the first row whose [str(row.get("Schedule
    Date"))] equals [today]. *)
Fixpoint find_today (today : pystr) (rows : list row) : option lesson :=
  match rows with
  | [] => None
  | r :: rest =>
      if bool_decide (py_str (row_get r (lit "Schedule Date")) = today)
      then Some (Lesson (row_get r (lit "Topic")) (row_get r (lit "Class"))
                        (row_get r (lit "Teacher")) (row_get r (lit "Subject")))
      else find_today today rest
  end.

(** The list comprehension of [students_for_class]; [r["Class"]] and the two
    other subscripts raise [KeyError] on a row without the column. *)
Fixpoint roster_of (class_name : pyval) (rows : list row) : outcome (list student) :=
  match rows with
  | [] => Ret []
  | r :: rest =>
      obind (row_item r (lit "Class")) (fun c =>
        if py_eq c class_name then
          obind (row_item r (lit "Student Name")) (fun n =>
          obind (row_item r (lit "Whatsapp Number")) (fun w =>
          obind (roster_of class_name rest) (fun l =>
            Ret (Student n (lstrip [plus_sign] (py_str w)) :: l))))
        else roster_of class_name rest)
  end.

Definition make_gspread (E : env) : M unit := call EAuthorize (authorize E).

Definition read_sheet (E : env) (sheet : pystr) : M (list row) :=
  ask (ERead sheet) (fun t => get_all_records E t sheet).

Definition today_topic (E : env) : M (option lesson) :=
  rows <- read_sheet E (COURSE_SHEET E) ;;
  ret (find_today (today E) rows).

Definition students_for_class (E : env) (class_name : pyval) : M (list student) :=
  rows <- read_sheet E (STUDENT_SHEET E) ;;
  lift (roster_of class_name rows).

(** ** The messaging client *)

Definition client_sendText (E : env) (jid body : pystr) : M unit :=
  call (ESendText jid body) (fun t => sendText E t jid body).

Definition client_reply (E : env) (jid text id : pystr) : M unit :=
  call (EReply jid text id) (fun t => reply E t jid text id).

(** An inbound message is a dictionary of the client library: it always has
    [from] and [id]; [body] may be absent or [None]. *)
Inductive body_field :=
| BodyAbsent
| BodyNone
| BodyText (s : pystr).

Record message := Message {
  msg_from : pystr;
  msg_id : pystr;
  msg_body : body_field;
  isGroupMsg : bool
}.

Definition NO_CLASS_REPLY : pystr := lit "No class today — enjoy your break 🎉".

(** The keyword arguments of the two [format] calls. *)
Definition prompt_kwargs (topic subject teacher clas : pyval) : kwargs :=
  [(lit "TOPIC", topic); (lit "SUBJECT", subject);
   (lit "TEACHER", teacher); (lit "CLASS", clas)].

(** * [main.py] *)

Module Main.

(** [SYSTEM_PROMPT], after [textwrap.dedent] and [strip]: one entry per line. *)
Definition SYSTEM_PROMPT_lines : list pystr :=
  [
    lit "You are a school *{SUBJECT}* educator for a classroom. Design an Universal design ";
    lit "learning topic recap for class *{CLASS}* student explaining the *{TOPIC}*";
    lit "which has been taught by *{TEACHER}* in the class. Tailer the lession for an ";
    lit "inquiry based science class and include an engaging real world analogy. ";
    lit "You can make the learning visual wherever relevant to explain the topic. ";
    lit "You should ensure that you are grounded in curriculum. Answers questions *only* about today’s";
    lit "lesson topic.";
    [];
    lit "- Do not use Markdown formatting. Just use plain text with asterisks (e.g., *important*) for emphasis.";
    lit "- When emphasizing words, wrap them in single asterisks like *this*, not double asterisks.";
    [];
    lit "Instructions:";
    lit "- After your first explanation, send a follow-up message asking the student if they would like examples or have any doubts.";
    lit "- Send a follow-up message to the student asking if they need a recap or have any doubts.";
    lit "- Answer questions related to today’s topic with clear, concise explanations.";
    lit "- Politely decline questions about unrelated topics.";
    lit "- If the student sends message which doesn't contain any words, respond with:";
    lit "  " ++ dq ++ lit "Please send your question in words so I can help you better 😊";
    [];
    [];
    lit "✅ **You SHOULD:**";
    lit "- Explain key points simply using analogies and plain language.";
    lit "- Be conversational: speak directly to one student (use *you*, not *everyone*).";
    lit "- Give bullet-point recaps if asked for a summary.";
    lit "- Encourage curiosity and gently guide the student if they’re confused.";
    lit "- Stick to factual and educational content.";
    lit "- Handle messages with only emojis or no text by replying:";
    lit "  " ++ dq ++ lit "Please send your question in words so I can help you better 😊" ++ dq;
    [];
    [];
    lit "❌ **You SHOULD NOT:**";
    lit "- Do not answer questions unrelated to the topic. Instead reply:";
    lit "  " ++ dq ++ lit "This question is about a different topic. Please ask about today’s topic: {TOPIC}." ++ dq;
    lit "- Do not use complex academic terms without explanation.";
    lit "- Do not mention AI, Gemini, or that you're a language model.";
    lit "- Do not assume the student knows everything — always check if they want a simpler version.";
    lit "- Do not answer for other subjects or days.";
    lit "- Avoid giving opinions, emotional support, or life advice.";
    lit "- Do not ask for any personal information from the student.";
    lit "- Avoid sensitive topics or triggering content.";
    [];
    [];
    lit "Audience:";
    lit "- You are speaking directly to one student in a private message.";
    lit "- Be friendly, warm, and conversational — use " ++ dq ++ lit "you" ++ dq ++ lit " instead of " ++ dq ++ lit "everyone" ++ dq ++ lit ".";
    lit "- Assume they are a student who may need simplified explanations.";
    [];
    lit "Today’s topic is: *{TOPIC}*";
    lit "Only answer questions about today’s topic.";
    [];
    lit "If a question is off-topic, reply with:";
    dq ++ lit "This question is about a different topic. Please ask about today’s topic: {TOPIC}." ++ dq;
    [];
    [];
    lit "If a student asks for a recap, reply with a bullet-point summary of key concepts, using asterisks (not bold) for emphasis.";
    [];
    lit "At the end of every response, show:";
    lit "📚 *{TOPIC}*  ";
    lit "📘 *{SUBJECT}*"
  ].
Definition SYSTEM_PROMPT : pystr := join nl SYSTEM_PROMPT_lines.

(** [GenerativeModel(..).start_chat(history=[prompt, ..])] builds a new chat
    object; objects are named by their creation rank. *)
Definition start_chat (prompt : pystr) : M nat :=
  fun st =>
    (Ret (chats_made st),
     State (trace st ++ [EStartChat (chats_made st) prompt])
           (chat_pool st) (S (chats_made st))).

Definition new_chat (topic subject teacher clas : pyval) : M nat :=
  prompt <- lift (py_format SYSTEM_PROMPT (prompt_kwargs topic subject teacher clas)) ;;
  start_chat prompt.

(** [chat_pool.setdefault(jid, chat)] *)
Definition pool_setdefault (jid : pystr) (chat : nat) : M nat :=
  fun st =>
    match chat_pool st !! jid with
    | Some c => (Ret c, st)
    | None => (Ret chat, State (trace st) (<[jid := chat]> (chat_pool st)) (chats_made st))
    end.

(** [chat.send_message(text, generation_config=GEN_CONFIG)] and [response.text] *)
Definition chat_send_message (E : env) (chat : nat) (text : pystr) : M pystr :=
  ask (ESendMessage chat text) (fun t => send_message E t chat text).

Definition push_body (stu : student) (topic clas teacher : pyval) : pystr :=
  lit "👋 Hello " ++ py_str (name stu) ++ lit "," ++ nl ++ nl
  ++ lit "Today in class *" ++ py_str clas ++ lit "* with " ++ py_str teacher
  ++ lit ", in mathematics we covered:" ++ nl
  ++ lit "📚 *" ++ py_str topic ++ lit "*" ++ nl ++ nl
  ++ lit "Need a recap or have doubts?" ++ nl
  ++ lit "Just reply here!".

Definition push_jid (stu : student) : pystr := lit "91" ++ phone stu.

(** The body of the [for stu in roster] loop. *)
Definition push_one (E : env) (topic clas teacher : pyval) (stu : student) : M unit :=
  let jid := push_jid stu in
  let body := push_body stu topic clas teacher in
  try_except
    (client_sendText E jid body ;;;
     print (lit "[Push] " ++ py_str (name stu) ++ lit " (" ++ phone stu ++ lit ")"))
    (fun e => print (lit "[Push‑ERR] " ++ phone stu ++ lit ": " ++ exn_str e)).

Definition push_daily_summary (E : env) : M unit :=
  make_gspread E ;;;
  info <- today_topic E ;;
  match info with
  | None => print (lit "No class scheduled today — skipping push.")
  | Some info =>
      roster <- students_for_class E (clas info) ;;
      for_each roster (push_one E (topic info) (clas info) (teacher info))
  end.

(** [message.get("body", "").strip()]: a body that is [None] has no [strip]. *)
Definition body_text (b : body_field) : outcome pystr :=
  match b with
  | BodyAbsent => Ret (strip [])
  | BodyNone => Exc (Exn AttributeError (lit "'NoneType' object has no attribute 'strip'"))
  | BodyText s => Ret (strip s)
  end.

Definition SNAG_REPLY : pystr := lit "Sorry, I hit a snag. Please try again?".

(** [role.upper()] *)
Definition role_upper (r : role) : pystr :=
  match r with
  | User => lit "USER"
  | Model => lit "MODEL"
  end.

(** The nested function [format_history]: the entire thread as one string. *)
Definition format_history (history : list turn) : pystr :=
  join (nl ++ nl)
       (map (fun t => role_upper (turn_role t) ++ lit " ----> " ++ join nl (turn_parts t))
            history).

Definition incoming_listener (E : env) (message : option message) : M unit :=
  match message with
  | None => ret tt
  | Some m =>
      if isGroupMsg m then ret tt
      else
        let jid := msg_from m in
        text <- lift (body_text (msg_body m)) ;;
        make_gspread E ;;;
        info <- today_topic E ;;
        match info with
        | None => client_reply E jid NO_CLASS_REPLY (msg_id m)
        | Some info =>
            fresh <- new_chat (topic info) (subject info) (teacher info) (clas info) ;;
            chat <- pool_setdefault jid fresh ;;
            history <- observe (fun t => chat_history E t chat) ;;
            let full_convo := format_history history in
            print (nl ++ lit "=========== Conversation with " ++ jid ++ lit " ===============" ++ nl) ;;;
            print (nl ++ full_convo ++ nl) ;;;
            print (nl ++ lit "===================================================" ++ nl) ;;;
            answer <- try_except
                        (chat_send_message E chat text)
                        (fun e => print (lit "[Gemini‑ERR] " ++ exn_str e) ;;;
                                  ret SNAG_REPLY) ;;
            client_reply E jid answer (msg_id m)
        end
  end.

(** The process after start-up: the scheduler fires the push job and the
    client delivers inbound messages, each in the environment of its time.
    An exception that leaves a callback is dropped by the dispatcher; the
    state it left stays. *)
Inductive event :=
| Timer (E : env)
| Inbound (E : env) (m : option message).

Definition handle (ev : event) : M unit :=
  match ev with
  | Timer E => push_daily_summary E
  | Inbound E m => incoming_listener E m
  end.

Fixpoint run (evs : list event) (st : state) : state :=
  match evs with
  | [] => st
  | ev :: rest => run rest (snd (handle ev st))
  end.

End Main.

(** * [main-adk-inmemoryserssionservice.py] *)

Module Adk.

Definition USER_ID_HEADER : pystr := lit "91".

(** [SYSTEM_PROMPT_TMPL], after [textwrap.dedent] and [strip]. *)
Definition SYSTEM_PROMPT_TMPL_lines : list pystr :=
  [
    lit "You are a school *{SUBJECT}* educator for a classroom. Design an Universal design ";
    lit "learning topic recap for class *{CLASS}* student explaining the *{TOPIC}*";
    lit "which has been taught by *{TEACHER}* in the class. Tailer the lession for an ";
    lit "inquiry based science class and include an engaging real world analogy. ";
    lit "You can make the learning visual wherever relevant to explain the topic. ";
    lit "You should ensure that you are grounded in curriculum. Answers questions *only* about today’s";
    lit "lesson topic.";
    [];
    lit "- Do not use Markdown formatting. Just use plain text with asterisks (e.g., *important*) for emphasis.";
    lit "- When emphasizing words, wrap them in single asterisks like *this*, not double asterisks.";
    [];
    lit "Instructions:";
    lit "- When asking for recap then only send explanation of the full topic, with now example.";
    lit "- After your first explanation, send a follow-up message asking the student if they would like examples or have any doubts.";
    lit "- Send a follow-up message to the student asking if they need a recap or have any doubts.";
    lit "- Answer questions related to today’s topic with clear, concise explanations.";
    lit "- Politely decline questions about unrelated topics.";
    lit "- If the student sends message which doesn't contain any words, respond with:";
    lit "  " ++ dq ++ lit "Please send your question in words so I can help you better 😊";
    [];
    [];
    lit "✅ **You SHOULD:**";
    lit "- Explain key points simply using analogies and plain language.";
    lit "- Be conversational: speak directly to one student (use *you*, not *everyone*).";
    lit "- Give bullet-point recaps if asked for a summary.";
    lit "- Use simple english words to explain.";
    lit "- Encourage curiosity and gently guide the student if they’re confused.";
    lit "- Stick to factual and educational content.";
    lit "- Handle messages with only emojis or no text by replying:";
    lit "  " ++ dq ++ lit "Please send your question in words so I can help you better 😊" ++ dq;
    [];
    [];
    lit "❌ **You SHOULD NOT:**";
    lit "- Do not answer questions unrelated to the topic. Instead reply:";
    lit "  " ++ dq ++ lit "This question is about a different topic. Please ask about today’s topic: {TOPIC}." ++ dq;
    lit "- Do not use complex academic terms without explanation.";
    lit "- Do not use complex english words.";
    lit "- Do not give example first when student want explanation, always give explanation of the first ";
    lit "- Do not mention AI, Gemini, or that you're a language model.";
    lit "- Do not assume the student knows everything — always check if they want a simpler version.";
    lit "- Do not answer for other subjects or days.";
    lit "- Avoid giving opinions, emotional support, or life advice.";
    lit "- Do not ask for any personal information from the student.";
    lit "- Avoid sensitive topics or triggering content.";
    [];
    [];
    lit "Audience:";
    lit "- You are speaking directly to one student in a private message.";
    lit "- Be friendly, warm, and conversational — use " ++ dq ++ lit "you" ++ dq ++ lit " instead of " ++ dq ++ lit "everyone" ++ dq ++ lit ".";
    lit "- Assume they are a student who may need simplified explanations.";
    [];
    lit "Today’s topic is: *{TOPIC}*";
    lit "Only answer questions about today’s topic.";
    [];
    lit "If a question is off-topic, reply with:";
    dq ++ lit "This question is about a different topic. Please ask about today’s topic: {TOPIC}." ++ dq;
    [];
    [];
    lit "If a student asks for a recap, reply with a bullet-point summary of key concepts, using asterisks (not bold) for emphasis.";
    [];
    lit "At the end of every response, show:";
    lit "📚 *{TOPIC}*  ";
    lit "📘 *{SUBJECT}*"
  ].
Definition SYSTEM_PROMPT_TMPL : pystr := join nl SYSTEM_PROMPT_TMPL_lines.

(** The module-level agent set-up, run once when the process starts:
    [data = today_topic(gc)], the four subscripts of [data] and the
    [format] call.  Subscripting [None] raises [TypeError]. *)
Definition agent_setup (E : env) : M (lesson * pystr) :=
  make_gspread E ;;;
  data <- today_topic E ;;
  match data with
  | None => raise (Exn TypeError (lit "'NoneType' object is not subscriptable"))
  | Some data =>
      system_prompt <- lift (py_format SYSTEM_PROMPT_TMPL
                               (prompt_kwargs (topic data) (subject data)
                                              (teacher data) (clas data))) ;;
      ret (data, system_prompt)
  end.

Definition push_body (stu : student) (topic class_ teacher : pyval) : pystr :=
  lit "👋 Hello " ++ py_str (name stu) ++ lit "," ++ nl ++ nl
  ++ lit "Today in class *" ++ py_str class_ ++ lit "* with " ++ py_str teacher
  ++ lit ", we covered:" ++ nl
  ++ lit "📚 *" ++ py_str topic ++ lit "*" ++ nl ++ nl
  ++ lit "Need a recap or have doubts?" ++ nl ++ lit "Just reply here!".

Definition push_jid (stu : student) : pystr :=
  USER_ID_HEADER ++ phone stu ++ lit "@c.us".

Definition session_state (topic class_ teacher subject : pyval) : list (pystr * pyval) :=
  [(lit "todays topic", topic); (lit "class", class_);
   (lit "teacher", teacher); (lit "subject", subject)].

(** The body of the [for stu in students_for_class(gc, class_)] loop. *)
Definition push_one (E : env) (topic class_ teacher subject : pyval) (stu : student)
  : M unit :=
  let jid := push_jid stu in
  let body := push_body stu topic class_ teacher in
  try_except
    (stateful_session <- ask (ECreateSession jid (session_state topic class_ teacher subject))
                             (fun t => returning (create_session E t jid)
                                                 (session_str E t jid)) ;;
     print (lit "state ful session ---->  " ++ stateful_session) ;;;
     client_sendText E jid body ;;;
     print (lit "[Push] " ++ py_str (name stu) ++ lit " (" ++ phone stu ++ lit ")"))
    (fun e => print (lit "[Push‑ERR] " ++ phone stu ++ lit ": " ++ exn_str e)).

(** [data] is the module-level variable bound by [agent_setup]; the job reads
    the four fields from it, not from [info]. *)
Definition push_daily_summary (data : lesson) (E : env) : M unit :=
  make_gspread E ;;;
  info <- today_topic E ;;
  match info with
  | None => print (lit "No class scheduled today — skipping push.")
  | Some info =>
      let topic := topic data in
      let class_ := clas data in
      let teacher := teacher data in
      let subject := subject data in
      roster <- students_for_class E class_ ;;
      for_each roster (push_one E topic class_ teacher subject)
  end.

Definition NO_RESPONSE_REPLY : pystr := lit "I couldn't generate a response. Please try again.".
Definition LLM_ERROR_REPLY : pystr := lit "I encountered an error processing your request.".
Definition HANDLER_ERROR_REPLY : pystr := lit "Sorry, I encountered an error.".

(** The loop over [runner.run(..)]: the text of the first part of the first
    final event that has parts; [reply_text] when the generator ends first. *)
Fixpoint first_final (steps : list run_step) (reply_text : pystr) : outcome pystr :=
  match steps with
  | [] => Ret reply_text
  | Raise e :: _ => Exc e
  | Yield ev :: rest =>
      if is_final_response ev then
        match content ev with
        | Some (part :: _) => Ret part
        | _ => first_final rest reply_text
        end
      else first_final rest reply_text
  end.

(** [(message.get("body") or "").strip()] *)
Definition body_text (b : body_field) : pystr :=
  match b with
  | BodyText s => strip s
  | _ => strip []
  end.

Definition is_empty (s : pystr) : bool :=
  match s with
  | [] => true
  | _ => false
  end.

Definition handle_message (E : env) (message : option message) : M unit :=
  match message with
  | None => ret tt
  | Some m =>
      if isGroupMsg m then ret tt
      else
        let jid := msg_from m in
        let text := body_text (msg_body m) in
        if is_empty text then ret tt
        else
          try_except
            (make_gspread E ;;;
             info <- today_topic E ;;
             match info with
             | None => client_reply E jid NO_CLASS_REPLY (msg_id m)
             | Some info =>
                 history <- ask (EGetSession jid)
                                (fun t => returning (get_session E t jid)
                                                    (session_str E t jid)) ;;
                 print (lit "==================================================") ;;;
                 print (lit "Message history: " ++ history) ;;;
                 print (lit "==================================================") ;;;
                 reply_text <- try_except
                                 (steps <- ask (ERunnerRun jid text)
                                               (fun t => Ret (runner_run E t jid text)) ;;
                                  lift (first_final steps NO_RESPONSE_REPLY))
                                 (fun e => print (lit "[LLM Error] " ++ exn_str e) ;;;
                                           ret LLM_ERROR_REPLY) ;;
                 client_reply E jid reply_text (msg_id m)
             end)
            (fun e => print (lit "[Handler Error] " ++ exn_str e) ;;;
                      client_reply E jid HANDLER_ERROR_REPLY (msg_id m))
  end.

End Adk.

(** * Reading a trace *)

Definition sent (x : effect) : option (pystr * pystr) :=
  match x with
  | ESendText jid body => Some (jid, body)
  | _ => None
  end.

Definition replied (x : effect) : option (pystr * pystr * pystr) :=
  match x with
  | EReply jid text id => Some (jid, text, id)
  | _ => None
  end.

Definition created (x : effect) : option pystr :=
  match x with
  | ECreateSession jid _ => Some jid
  | _ => None
  end.

(** The call reaches the language model. *)
Definition is_llm_call (x : effect) : bool :=
  match x with
  | ESendMessage _ _ | ERunnerRun _ _ => true
  | _ => false
  end.

(** Outbound messages, replies and session creations attempted, in order. *)
Definition sends (t : list effect) : list (pystr * pystr) := omap sent t.
Definition replies (t : list effect) : list (pystr * pystr * pystr) := omap replied t.
Definition creations (t : list effect) : list pystr := omap created t.
Definition llm_calls (t : list effect) : list effect := filter (fun x => is_llm_call x = true) t.

(** * Sample data *)

Definition row_of (cells : list (pystr * pyval)) : row := list_to_map cells.

Definition course_row (date : string) (topic class_ teacher subject : string) : row :=
  row_of [(lit "Schedule Date", VStr (lit date)); (lit "Topic", VStr (lit topic));
          (lit "Class", VStr (lit class_)); (lit "Teacher", VStr (lit teacher));
          (lit "Subject", VStr (lit subject))].

Definition student_row (name_ : string) (number : pyval) (class_ : string) : row :=
  row_of [(lit "Student Name", VStr (lit name_)); (lit "Whatsapp Number", number);
          (lit "Class", VStr (lit class_))].

(** An environment in which every service answers: the two sheets have the
    given rows and the model answers [answer]. *)
Definition calm_env (date : string) (course students : list row) (answer : pystr) : env :=
  {| today := lit date;
     COURSE_SHEET := lit "Course Plan";
     STUDENT_SHEET := lit "Student";
     authorize := fun _ => None;
     get_all_records := fun _ sheet =>
       if bool_decide (sheet = lit "Course Plan") then Ret course
       else if bool_decide (sheet = lit "Student") then Ret students
       else Exc (Exn ServiceError (lit "WorksheetNotFound"));
     sendText := fun _ _ _ => None;
     reply := fun _ _ _ _ => None;
     send_message := fun _ _ _ => Ret answer;
     create_session := fun _ _ => None;
     get_session := fun _ _ => None;
     runner_run := fun _ _ _ => [Yield (RunEvent true (Some [answer]))];
     chat_history := fun _ _ => [Turn User [lit "(system prompt)"];
                                 Turn Model [lit "Understood. I only answer questions about today's topic."]];
     session_str := fun _ jid => lit "Session(id=" ++ jid ++ lit ")" |}.

Definition st0 : state := State [] ∅ 0.

Definition monday : string := "2025-01-06".
Definition tuesday : string := "2025-01-07".

Definition course_plan : list row :=
  [course_row monday "Photosynthesis" "7A" "Ms. Rao" "Science";
   course_row tuesday "Fractions" "8B" "Mr. Das" "Maths"].

Definition roster_sheet : list row :=
  [student_row "Asha" (VStr (lit "+911234567890")) "7A";
   student_row "Bina" (VInt 9876543210) "8B"].

Definition asha : student := Student (VStr (lit "Asha")) (lit "911234567890").
Definition bina : student := Student (VStr (lit "Bina")) (lit "9876543210").

Definition photosynthesis : lesson :=
  Lesson (VStr (lit "Photosynthesis")) (VStr (lit "7A")) (VStr (lit "Ms. Rao"))
         (VStr (lit "Science")).
Definition fractions : lesson :=
  Lesson (VStr (lit "Fractions")) (VStr (lit "8B")) (VStr (lit "Mr. Das"))
         (VStr (lit "Maths")).



(** * A template as literal text with named holes

    [scan] reads a format string the way [format_from] does, without filling
    the holes; [render] fills them.  This is the reading of a prompt as "pure
    string substitution" against which [py_format] is compared. *)

Inductive piece :=
| PLit (c : N)
| PField (name : pystr).

Fixpoint scan (fld : option pystr) (s : pystr) : option (list piece) :=
  match fld, s with
  | None, [] => Some []
  | None, c :: r =>
      if c =? lbrace then
        match r with
        | [] => None
        | c' :: r' =>
            if c' =? lbrace then cons (PLit lbrace) <$> scan None r'
            else scan (Some []) r
        end
      else if c =? rbrace then
        match r with
        | [] => None
        | c' :: r' =>
            if c' =? rbrace then cons (PLit rbrace) <$> scan None r' else None
        end
      else cons (PLit c) <$> scan None r
  | Some acc, [] => None
  | Some acc, c :: r =>
      if c =? rbrace then cons (PField acc) <$> scan None r
      else if c =? lbrace then None
      else scan (Some (acc ++ [c])) r
  end.

Definition hole (p : piece) : option pystr :=
  match p with
  | PField n => Some n
  | PLit _ => None
  end.

(** The names of the holes, in order of occurrence. *)
Definition fields (ps : list piece) : list pystr := omap hole ps.

Fixpoint render (val : pystr -> pystr) (ps : list piece) : pystr :=
  match ps with
  | [] => []
  | PLit c :: r => c :: render val r
  | PField n :: r => val n ++ render val r
  end.

(** The text that fills the hole [n] of a prompt. *)
Definition prompt_value (topic subject teacher clas : pyval) (n : pystr) : pystr :=
  py_str (default VNone (kw_lookup (prompt_kwargs topic subject teacher clas) n)).

Definition prompt_fields : list pystr :=
  [lit "TOPIC"; lit "SUBJECT"; lit "TEACHER"; lit "CLASS"].

(** [needle in s] *)
Fixpoint starts_with (needle s : pystr) : bool :=
  match needle, s with
  | [], _ => true
  | _ :: _, [] => false
  | a :: n', b :: s' => (a =? b) && starts_with n' s'
  end.

Fixpoint contains (needle s : pystr) : bool :=
  starts_with needle s ||
  match s with
  | [] => false
  | _ :: s' => contains needle s'
  end.

(** * Vocabulary of the statements *)

(** The row belongs to the class. *)
Definition in_class (class_name : pyval) (r : row) : Prop :=
  r !! lit "Class" = Some class_name.

#[global] Instance in_class_dec class_name r : Decision (in_class class_name r).
Proof. unfold in_class. apply _. Defined.

(** The roster entry [stu] is what the comprehension makes of the row [r]. *)
Definition enrolled (r : row) (stu : student) : Prop :=
  r !! lit "Student Name" = Some (name stu)
  /\ exists w, r !! lit "Whatsapp Number" = Some w
               /\ phone stu = lstrip [plus_sign] (py_str w).

(** The outbound message of the push job for one student, given the lesson
    record the texts are taken from. *)
Definition main_push_message (rec : lesson) (stu : student) : pystr * pystr :=
  (Main.push_jid stu, Main.push_body stu (topic rec) (clas rec) (teacher rec)).

Definition adk_push_message (rec : lesson) (stu : student) : pystr * pystr :=
  (Adk.push_jid stu, Adk.push_body stu (topic rec) (clas rec) (teacher rec)).

(** The external calls that the computation [m] adds to the trace of [st]. *)
Definition added_by {A} (m : M A) (st : state) : list effect :=
  drop (length (trace st)) (trace (snd (m st))).




Definition client_down (E : env) : env :=
  {| today := today E; COURSE_SHEET := COURSE_SHEET E; STUDENT_SHEET := STUDENT_SHEET E;
     authorize := authorize E; get_all_records := get_all_records E;
     sendText := fun _ _ _ => Some (Exn ServiceError (lit "detached frame"));
     reply := fun _ _ _ _ => Some (Exn ServiceError (lit "detached frame"));
     send_message := send_message E;
     create_session := create_session E; get_session := get_session E;
     runner_run := runner_run E;
     chat_history := chat_history E; session_str := session_str E |}.

Definition monday_env : env := calm_env monday course_plan roster_sheet (lit "Leaves make sugar.").
Definition tuesday_env : env := calm_env tuesday course_plan roster_sheet (lit "Halves and thirds.").
Definition sunday_env : env := calm_env "2025-01-05" course_plan roster_sheet (lit "ok").

Definition asha_jid : pystr := lit "911234567890@c.us".

Definition blank_msg : message := Message asha_jid (lit "msg-1") (BodyText (lit "   ")) false.
Definition emoji_msg : message := Message asha_jid (lit "msg-2") (BodyText (lit "😊")) false.
Definition hello_msg : message := Message asha_jid (lit "msg-4") (BodyText (lit "What is a leaf?")) false.

(** * Shapes of the handlers' traces *)

Definition outcome_of (o : option exn) : outcome unit :=
  match o with
  | None => Ret tt
  | Some e => Exc e
  end.

(** The answer relayed after the call to the model, and what is printed. *)
Definition main_answer_tail (E : env) (t : list effect) (chat : nat) (m : message)
           (text : pystr) : list effect :=
  match send_message E t chat text with
  | Ret answer => [EReply (msg_from m) answer (msg_id m)]
  | Exc e => [EPrint (lit "[Gemini‑ERR] " ++ exn_str e);
              EReply (msg_from m) Main.SNAG_REPLY (msg_id m)]
  end.

(** The three prints of [main.py] that dump the conversation of the chat. *)
Definition main_dump (E : env) (t : list effect) (jid : pystr) (chat : nat) : list effect :=
  [EPrint (nl ++ lit "=========== Conversation with " ++ jid ++ lit " ===============" ++ nl);
   EPrint (nl ++ Main.format_history (chat_history E t chat) ++ nl);
   EPrint (nl ++ lit "===================================================" ++ nl)].

(** The three prints of the ADK handler that show the session it read. *)
Definition adk_dump (history : pystr) : list effect :=
  [EPrint (lit "==================================================");
   EPrint (lit "Message history: " ++ history);
   EPrint (lit "==================================================")].

(** What the handler of [main.py] does, once the lesson is found, before it
    calls the model. *)
Definition main_prelude (E : env) (st : state) (prompt jid : pystr) (chat : nat)
  : list effect :=
  [EAuthorize; ERead (COURSE_SHEET E); EStartChat (chats_made st) prompt]
    ++ main_dump E (trace st ++ [EAuthorize; ERead (COURSE_SHEET E);
                                 EStartChat (chats_made st) prompt]) jid chat.

(** What the ADK handler does, once the lesson is found, before it runs the
    agent. *)
Definition adk_prelude (E : env) (st : state) (jid : pystr) : list effect :=
  [EAuthorize; ERead (COURSE_SHEET E); EGetSession jid]
    ++ adk_dump (session_str E (trace st ++ [EAuthorize; ERead (COURSE_SHEET E)]) jid).

Definition adk_fallback (m : message) (e : exn) : list effect :=
  [EPrint (lit "[Handler Error] " ++ exn_str e);
   EReply (msg_from m) Adk.HANDLER_ERROR_REPLY (msg_id m)].

(** The answer relayed after the run of the agent, and what is printed. *)
Definition adk_answer_tail (E : env) (t : list effect) (m : message) (text : pystr)
  : list effect :=
  match Adk.first_final (runner_run E t (msg_from m) text) Adk.NO_RESPONSE_REPLY with
  | Ret answer => [EReply (msg_from m) answer (msg_id m)]
  | Exc e => [EPrint (lit "[LLM Error] " ++ exn_str e);
              EReply (msg_from m) Adk.LLM_ERROR_REPLY (msg_id m)]
  end.


(** A course plan whose row for Monday has no "Topic" column. *)
Definition course_plan_without_topic : list row :=
  [row_of [(lit "Schedule Date", VStr (lit monday)); (lit "Class", VStr (lit "7A"));
           (lit "Teacher", VStr (lit "Ms. Rao")); (lit "Subject", VStr (lit "Science"))]].

(** * Further vocabulary *)

(** The row has the columns that the roster comprehension subscripts for
    it: "Class" always, the name and the number when it is of the class. *)
Definition roster_row_ok (class_name : pyval) (r : row) : Prop :=
  is_Some (r !! lit "Class")
  /\ (in_class class_name r ->
      is_Some (r !! lit "Student Name") /\ is_Some (r !! lit "Whatsapp Number")).

(** A roster sheet with a row that lacks the "Whatsapp Number" column. *)
Definition roster_sheet_broken : list row :=
  roster_sheet ++ [row_of [(lit "Student Name", VStr (lit "Chitra"));
                           (lit "Class", VStr (lit "7A"))]].

(** An external call that a handler may make while it serves the message [m]:
    any call but an outbound push or a session creation, and replies only to
    the sender, quoting the message. *)
Definition handler_effect (m : message) (x : effect) : Prop :=
  match x with
  | ESendText _ _ | ECreateSession _ _ => False
  | EReply jid _ id => jid = msg_from m /\ id = msg_id m
  | _ => True
  end.

(** What one event of [runner.run] contributes to the loop of the handler:
    the text that ends it, for a final response whose content has parts. *)
Definition answers (ev : run_event) : option pystr :=
  if is_final_response ev then
    match content ev with
    | Some (part :: _) => Some part
    | _ => None
    end
  else None.

(** The step neither ends the loop nor raises. *)
Definition quiet (s : run_step) : Prop :=
  match s with
  | Yield ev => answers ev = None
  | Raise _ => False
  end.

(** Every stored chat object has been created: its name is below the count. *)
Definition pool_fresh (st : state) : Prop :=
  forall jid c, chat_pool st !! jid = Some c -> (c < chats_made st)%nat.

(** No two recipients share a chat object. *)
Definition pool_injective (st : state) : Prop :=
  forall jid1 jid2 c,
    chat_pool st !! jid1 = Some c -> chat_pool st !! jid2 = Some c -> jid1 = jid2.

(** A state in which Asha already has the chat object 0. *)
Definition st_asha : state := State [] {[asha_jid := 0%nat]} 1.



(** A message whose body is [None] and one without a body. *)
Definition none_msg : message := Message asha_jid (lit "msg-5") BodyNone false.
Definition bodiless_msg : message := Message asha_jid (lit "msg-6") BodyAbsent false.

(** The calls of the ADK loop over a roster, from the trace [t] on.  For each
    student in turn the session is created; when that failed only the error
    line follows, and when it succeeded the session is printed, the send is
    attempted and a line is printed. *)
Inductive adk_loop_trace (E : env) (rec : lesson)
  : list effect -> list student -> list effect -> Prop :=
| loop_end (t : list effect) : adk_loop_trace E rec t [] []
| loop_creation_failed (t : list effect) (stu : student) (rest : list student)
                       (line : pystr) (more : list effect) :
    create_session E t (Adk.push_jid stu) <> None ->
    adk_loop_trace E rec
      (t ++ [ECreateSession (Adk.push_jid stu)
               (Adk.session_state (topic rec) (clas rec) (teacher rec) (subject rec));
             EPrint line])
      rest more ->
    adk_loop_trace E rec t (stu :: rest)
      (ECreateSession (Adk.push_jid stu)
         (Adk.session_state (topic rec) (clas rec) (teacher rec) (subject rec))
       :: EPrint line :: more)
| loop_send_attempted (t : list effect) (stu : student) (rest : list student)
                      (line1 line2 : pystr) (more : list effect) :
    create_session E t (Adk.push_jid stu) = None ->
    adk_loop_trace E rec
      (t ++ [ECreateSession (Adk.push_jid stu)
               (Adk.session_state (topic rec) (clas rec) (teacher rec) (subject rec));
             EPrint line1;
             ESendText (Adk.push_jid stu)
                       (Adk.push_body stu (topic rec) (clas rec) (teacher rec));
             EPrint line2])
      rest more ->
    adk_loop_trace E rec t (stu :: rest)
      (ECreateSession (Adk.push_jid stu)
         (Adk.session_state (topic rec) (clas rec) (teacher rec) (subject rec))
       :: EPrint line1
       :: ESendText (Adk.push_jid stu)
                    (Adk.push_body stu (topic rec) (clas rec) (teacher rec))
       :: EPrint line2 :: more).


(** * Properties

    Sanity checks of the embedding on concrete inputs. *)

Example lit_dash : lit "a—🎉" = [97; 8212; 127881].
Proof. reflexivity. Qed.

Example strip_example : strip (lit "  hi there " ++ nl) = lit "hi there".
Proof. reflexivity. Qed.

Example py_str_int : py_str (VInt 911234567890) = lit "911234567890".
Proof. reflexivity. Qed.

Example py_str_neg : py_str (VInt (-7)) = lit "-7".
Proof. reflexivity. Qed.

Example find_monday : find_today (lit monday) course_plan = Some photosynthesis.
Proof. vm_compute. reflexivity. Qed.

Example find_sunday : find_today (lit "2025-01-05") course_plan = None.
Proof. vm_compute. reflexivity. Qed.

Example roster_7A : roster_of (VStr (lit "7A")) roster_sheet = Ret [asha].
Proof. vm_compute. reflexivity. Qed.

Example roster_8B : roster_of (VStr (lit "8B")) roster_sheet = Ret [bina].
Proof. vm_compute. reflexivity. Qed.

Example main_push_monday :
  sends (trace (snd (Main.push_daily_summary (calm_env monday course_plan roster_sheet []) st0)))
  = [(lit "91911234567890",
      Main.push_body asha (VStr (lit "Photosynthesis")) (VStr (lit "7A")) (VStr (lit "Ms. Rao")))].
Proof. vm_compute. reflexivity. Qed.

(** ** [str.format] is substitution into the scanned template *)

Lemma format_from_scan_len (kw : kwargs) (val : pystr -> pystr) (n : nat) :
  forall (s : pystr) (fld : option pystr) (ps : list piece),
    (length s <= n)%nat ->
    scan fld s = Some ps ->
    (forall f, In f (fields ps) -> format_field kw f = Ret (val f)) ->
    format_from kw fld s = Ret (render val ps).
Proof.
  induction n as [|n IH]; intros s fld ps Hlen Hscan Hval.
  - destruct s; [|simpl in Hlen; lia].
    destruct fld; simpl in *; [discriminate|]. by inversion Hscan.
  - destruct s as [|c r].
    { destruct fld; simpl in *; [discriminate|]. by inversion Hscan. }
    simpl in Hlen.
    destruct fld as [acc|]; simpl in *.
    + destruct (c =? rbrace).
      * destruct (scan None r) as [ps'|] eqn:Hr; simpl in Hscan; [|discriminate].
        inversion Hscan; subst ps; clear Hscan.
        rewrite (Hval acc) by (simpl; auto). simpl.
        rewrite (IH r None ps') by (auto with lia || (intros; apply Hval; simpl; auto)).
        reflexivity.
      * destruct (c =? lbrace); [discriminate|].
        apply IH; auto with lia.
    + destruct (c =? lbrace).
      * destruct r as [|c' r']; [discriminate|]. simpl in Hlen.
        destruct (c' =? lbrace).
        -- destruct (scan None r') as [ps'|] eqn:Hr; simpl in Hscan; [|discriminate].
           inversion Hscan; subst ps; clear Hscan.
           rewrite (IH r' None ps') by (auto with lia). reflexivity.
        -- apply IH; simpl; auto with lia.
      * destruct (c =? rbrace).
        -- destruct r as [|c' r']; [discriminate|]. simpl in Hlen.
           destruct (c' =? rbrace); [|discriminate].
           destruct (scan None r') as [ps'|] eqn:Hr; simpl in Hscan; [|discriminate].
           inversion Hscan; subst ps; clear Hscan.
           rewrite (IH r' None ps') by (auto with lia). reflexivity.
        -- destruct (scan None r) as [ps'|] eqn:Hr; simpl in Hscan; [|discriminate].
           inversion Hscan; subst ps; clear Hscan.
           rewrite (IH r None ps') by (auto with lia). reflexivity.
Qed.

Lemma py_format_scan (kw : kwargs) (val : pystr -> pystr) (tmpl : pystr) (ps : list piece) :
  scan None tmpl = Some ps ->
  (forall f, In f (fields ps) -> format_field kw f = Ret (val f)) ->
  py_format tmpl kw = Ret (render val ps).
Proof. intros. unfold py_format. by eapply format_from_scan_len. Qed.

(** The four names of [prompt_kwargs] are always bound, whatever the values. *)
Lemma prompt_field_bound (topic subject teacher clas : pyval) (f : pystr) :
  In f prompt_fields ->
  format_field (prompt_kwargs topic subject teacher clas) f
  = Ret (prompt_value topic subject teacher clas f).
Proof.
  unfold prompt_fields. simpl.
  intros [<-|[<-|[<-|[<-|[]]]]]; reflexivity.
Qed.

(** Both templates scan, and their holes are the four fields and nothing else. *)
Lemma templates_scan :
  (exists ps, scan None Main.SYSTEM_PROMPT = Some ps
              /\ forall f, In f (fields ps) <-> In f prompt_fields)
  /\ (exists ps, scan None Adk.SYSTEM_PROMPT_TMPL = Some ps
                 /\ forall f, In f (fields ps) <-> In f prompt_fields).
Proof.
  split.
  - destruct (scan None Main.SYSTEM_PROMPT) as [ps|] eqn:Hs;
      [|vm_compute in Hs; discriminate].
    exists ps. split; [reflexivity|].
    assert (Hf : fields ps
                 = [lit "SUBJECT"; lit "CLASS"; lit "TOPIC"; lit "TEACHER"; lit "TOPIC";
                    lit "TOPIC"; lit "TOPIC"; lit "TOPIC"; lit "SUBJECT"]).
    { vm_compute in Hs. inversion Hs. vm_compute. reflexivity. }
    rewrite Hf. unfold prompt_fields. intros f. simpl. tauto.
  - destruct (scan None Adk.SYSTEM_PROMPT_TMPL) as [ps|] eqn:Hs;
      [|vm_compute in Hs; discriminate].
    exists ps. split; [reflexivity|].
    assert (Hf : fields ps
                 = [lit "SUBJECT"; lit "CLASS"; lit "TOPIC"; lit "TEACHER"; lit "TOPIC";
                    lit "TOPIC"; lit "TOPIC"; lit "TOPIC"; lit "SUBJECT"]).
    { vm_compute in Hs. inversion Hs. vm_compute. reflexivity. }
    rewrite Hf. unfold prompt_fields. intros f. simpl. tauto.
Qed.

(** ** Phone normalisation *)

Lemma lstrip_plus_decompose (s : pystr) :
  exists k, s = repeat plus_sign k ++ lstrip [plus_sign] s.
Proof.
  unfold lstrip. induction s as [|c r [k IH]]; [by exists 0%nat|].
  simpl. destruct (c =? plus_sign) eqn:Hc; simpl.
  - apply N.eqb_eq in Hc. subst c. exists (S k). simpl. by f_equal.
  - by exists 0%nat.
Qed.

Lemma lstrip_plus_head (s : pystr) (c : N) (r : pystr) :
  lstrip [plus_sign] s = c :: r -> c <> plus_sign.
Proof.
  unfold lstrip. induction s as [|a s IH]; simpl; [discriminate|].
  destruct (a =? plus_sign) eqn:Ha; simpl; [exact IH|].
  intros [= -> _]. by apply N.eqb_neq.
Qed.

Lemma roster_of_spec (class_name : pyval) (rows : list row) :
  forall roster,
    roster_of class_name rows = Ret roster ->
    Forall2 enrolled (filter (in_class class_name) rows) roster.
Proof.
  induction rows as [|r rest IH]; intros roster H; simpl in H.
  - inversion H. constructor.
  - unfold row_item in H at 1.
    destruct (r !! lit "Class") as [c|] eqn:Hc; simpl in H; [|discriminate].
    unfold py_eq in H. case_bool_decide as Hcn.
    + subst c. unfold row_item in H.
      destruct (r !! lit "Student Name") as [n|] eqn:Hn; simpl in H; [|discriminate].
      destruct (r !! lit "Whatsapp Number") as [w|] eqn:Hw; simpl in H; [|discriminate].
      destruct (roster_of class_name rest) as [l|] eqn:Hl; simpl in H; [|discriminate].
      inversion H; subst roster; clear H.
      rewrite filter_cons_True by exact Hc.
      constructor; [|by apply IH].
      split; [exact Hn|]. exists w. by split.
    + rewrite filter_cons_False; [by apply IH|].
      unfold in_class. rewrite Hc. congruence.
Qed.

(** ** The push job of [main.py] *)

Ltac run_monad :=
  unfold bind, ret, raise, lift, call, ask, print, observe, try_except, emit;
  cbn [trace chat_pool chats_made fst snd].

Ltac fields_of_state := cbn [trace chat_pool chats_made fst snd].

Lemma sends_app (t u : list effect) : sends (t ++ u) = sends t ++ sends u.
Proof. apply omap_app. Qed.


Lemma creations_app (t u : list effect) : creations (t ++ u) = creations t ++ creations u.
Proof. apply omap_app. Qed.

Lemma llm_calls_app (t u : list effect) : llm_calls (t ++ u) = llm_calls t ++ llm_calls u.
Proof. apply filter_app. Qed.

Lemma sends_cons (x : effect) (t : list effect) :
  sends (x :: t) = match sent x with Some p => p :: sends t | None => sends t end.
Proof. reflexivity. Qed.

Lemma replies_cons (x : effect) (t : list effect) :
  replies (x :: t) = match replied x with Some p => p :: replies t | None => replies t end.
Proof. reflexivity. Qed.

Lemma creations_cons (x : effect) (t : list effect) :
  creations (x :: t)
  = match created x with Some p => p :: creations t | None => creations t end.
Proof. reflexivity. Qed.

Lemma llm_calls_cons (x : effect) (t : list effect) :
  llm_calls (x :: t) = if is_llm_call x then x :: llm_calls t else llm_calls t.
Proof.
  unfold llm_calls. destruct (is_llm_call x) eqn:H.
  - by rewrite filter_cons_True.
  - rewrite filter_cons_False; [done|]. by rewrite H.
Qed.

Ltac read_trace :=
  rewrite ?sends_cons, ?replies_cons, ?creations_cons, ?llm_calls_cons;
  cbn [sent replied created is_llm_call].

(** One turn of the loop always completes: the send is attempted, its failure
    is caught, and one line is printed. *)
Lemma main_push_one_run (E : env) (topic clas teacher : pyval) (stu : student) (st : state) :
  exists line,
    Main.push_one E topic clas teacher stu st
    = (Ret tt,
       State (trace st ++ [ESendText (Main.push_jid stu)
                                     (Main.push_body stu topic clas teacher);
                           EPrint line])
             (chat_pool st) (chats_made st)).
Proof.
  unfold Main.push_one, client_sendText. run_monad.
  destruct (sendText E (trace st) _ _); fields_of_state;
    eexists; rewrite <- app_assoc; reflexivity.
Qed.

Lemma main_push_loop (E : env) (rec : lesson) (roster : list student) :
  forall st, exists added,
    for_each roster (Main.push_one E (topic rec) (clas rec) (teacher rec)) st
    = (Ret tt, State (trace st ++ added) (chat_pool st) (chats_made st))
    /\ sends added = map (main_push_message rec) roster
    /\ llm_calls added = []
    /\ replies added = [].
Proof.
  induction roster as [|stu rest IH]; intros st; simpl.
  - exists []. rewrite app_nil_r. by destruct st.
  - destruct (main_push_one_run E (topic rec) (clas rec) (teacher rec) stu st) as [line H1].
    unfold bind at 1. rewrite H1.
    destruct (IH (State (trace st ++ [ESendText (Main.push_jid stu)
                                        (Main.push_body stu (topic rec) (clas rec) (teacher rec));
                                      EPrint line])
                        (chat_pool st) (chats_made st))) as (added & H2 & Hs & Hl & Hr).
    simpl in H2. rewrite H2.
    eexists (_ :: _ :: added). rewrite <- app_assoc. simpl. split; [reflexivity|].
    unfold sends, llm_calls, replies in *. simpl.
    rewrite Hs. repeat split; [exact Hl | exact Hr].
Qed.

(** What one run of the push job of [main.py] does, in every environment: it
    never reaches the model or replies, and when it sends anything, the
    lesson record and the roster were read during this very run, the job
    completes, and the messages are those of the roster, one per entry. *)
Lemma main_push_cases (E : env) (st : state) :
  exists added,
    trace (snd (Main.push_daily_summary E st)) = trace st ++ added
    /\ chat_pool (snd (Main.push_daily_summary E st)) = chat_pool st
    /\ chats_made (snd (Main.push_daily_summary E st)) = chats_made st
    /\ llm_calls added = []
    /\ replies added = []
    /\ (sends added = []
        \/ exists rows rec srows roster rest,
             get_all_records E (trace st ++ [EAuthorize]) (COURSE_SHEET E) = Ret rows
             /\ find_today (today E) rows = Some rec
             /\ get_all_records E (trace st ++ [EAuthorize; ERead (COURSE_SHEET E)])
                                (STUDENT_SHEET E) = Ret srows
             /\ roster_of (clas rec) srows = Ret roster
             /\ fst (Main.push_daily_summary E st) = Ret tt
             /\ added = EAuthorize :: ERead (COURSE_SHEET E) :: ERead (STUDENT_SHEET E) :: rest
             /\ sends rest = map (main_push_message rec) roster).
Proof.
  unfold Main.push_daily_summary, make_gspread, today_topic, students_for_class, read_sheet.
  run_monad.
  destruct (authorize E (trace st)) as [e|]; fields_of_state.
  { exists [EAuthorize]. repeat split; auto. }
  rewrite <- !app_assoc. cbn [app].
  destruct (get_all_records E (trace st ++ [EAuthorize]) (COURSE_SHEET E))
    as [rows|e] eqn:Hrows; fields_of_state.
  2:{ exists [EAuthorize; ERead (COURSE_SHEET E)]. repeat split; auto. }
  destruct (find_today (today E) rows) as [rec|] eqn:Hrec; fields_of_state.
  2:{ rewrite <- !app_assoc. cbn [app]. eexists. repeat split; auto. }
  rewrite <- !app_assoc. cbn [app].
  destruct (get_all_records E (trace st ++ [EAuthorize; ERead (COURSE_SHEET E)])
                            (STUDENT_SHEET E)) as [srows|e] eqn:Hsrows; fields_of_state.
  2:{ eexists. repeat split; auto. }
  destruct (roster_of (clas rec) srows) as [roster|e] eqn:Hroster; fields_of_state.
  2:{ eexists. repeat split; auto. }
  match goal with
  | |- context [for_each roster ?f ?s] =>
      destruct (main_push_loop E rec roster s) as (rest & Hrun & Hs & Hl & Hr)
  end.
  rewrite Hrun. fields_of_state. rewrite <- !app_assoc. cbn [app].
  eexists. split; [reflexivity|]. repeat split; auto.
  right. exists rows, rec, srows, roster, rest. repeat split; auto.
Qed.

(** ** The push job of the ADK variant *)

(** One turn of the loop always completes.  The session is created first;
    the send is attempted only when that succeeded. *)
Lemma adk_push_one_run (E : env) (rec : lesson) (stu : student) (st : state) :
  exists tail,
    Adk.push_one E (topic rec) (clas rec) (teacher rec) (subject rec) stu st
    = (Ret tt,
       State (trace st
              ++ ECreateSession (Adk.push_jid stu)
                   (Adk.session_state (topic rec) (clas rec) (teacher rec) (subject rec))
                 :: tail)
             (chat_pool st) (chats_made st))
    /\ ((exists line, tail = [EPrint line]
                      /\ create_session E (trace st) (Adk.push_jid stu) <> None)
        \/ (exists line1 line2,
               tail = [EPrint line1;
                       ESendText (Adk.push_jid stu)
                                 (Adk.push_body stu (topic rec) (clas rec) (teacher rec));
                       EPrint line2]
               /\ create_session E (trace st) (Adk.push_jid stu) = None)).
Proof.
  unfold Adk.push_one, client_sendText. run_monad.
  destruct (create_session E (trace st) (Adk.push_jid stu)) as [e|] eqn:Hc;
    cbn [returning]; fields_of_state.
  - eexists. rewrite <- !app_assoc. cbn [app]. split; [reflexivity|].
    left. eexists. split; [reflexivity|discriminate].
  - destruct (sendText E _ _ _); fields_of_state;
      eexists; rewrite <- !app_assoc; cbn [app]; (split; [reflexivity|]);
      right; eexists; eexists; split; reflexivity.
Qed.

Lemma adk_push_loop (E : env) (rec : lesson) (roster : list student) :
  forall st, exists added,
    for_each roster (Adk.push_one E (topic rec) (clas rec) (teacher rec) (subject rec)) st
    = (Ret tt, State (trace st ++ added) (chat_pool st) (chats_made st))
    /\ creations added = map Adk.push_jid roster
    /\ sublist (sends added) (map (adk_push_message rec) roster)
    /\ ((forall t jid, create_session E t jid = None) ->
        sends added = map (adk_push_message rec) roster)
    /\ llm_calls added = []
    /\ replies added = []
    /\ adk_loop_trace E rec (trace st) roster added.
Proof.
  induction roster as [|stu rest IH]; intros st; simpl.
  - exists []. rewrite app_nil_r. destruct st. repeat split; auto; constructor.
  - destruct (adk_push_one_run E rec stu st) as (tail & H1 & Htail).
    unfold bind at 1. rewrite H1.
    match goal with
    | |- context [for_each rest ?f ?s] =>
        destruct (IH s) as (added & H2 & Hc & Hsub & Hall & Hl & Hr & Hrel)
    end.
    cbn [trace chat_pool chats_made] in H2, Hrel. rewrite H2.
    eexists (_ :: tail ++ added). rewrite <- app_assoc. cbn [app].
    split; [reflexivity|].
    destruct Htail as [(line & -> & Hno)|(line1 & line2 & -> & Hyes)]; cbn [app]; read_trace.
    + rewrite Hc. repeat split; auto.
      * by apply sublist_cons.
      * intros Hok. by rewrite Hok in Hno.
      * by apply loop_creation_failed.
    + rewrite Hc. repeat split; auto.
      * by apply sublist_skip.
      * intros Hok. by rewrite (Hall Hok).
      * by apply loop_send_attempted.
Qed.

(** What one run of the ADK push job does, in every environment and for every
    start-up record [data]: the texts and the class of the roster come from
    [data]; the record found during the run only decides whether the loop
    runs at all. *)
Lemma adk_push_cases (data : lesson) (E : env) (st : state) :
  exists added,
    trace (snd (Adk.push_daily_summary data E st)) = trace st ++ added
    /\ llm_calls added = []
    /\ replies added = []
    /\ (sends added = [] /\ creations added = []
        \/ exists rows rec srows roster rest,
             get_all_records E (trace st ++ [EAuthorize]) (COURSE_SHEET E) = Ret rows
             /\ find_today (today E) rows = Some rec
             /\ get_all_records E (trace st ++ [EAuthorize; ERead (COURSE_SHEET E)])
                                (STUDENT_SHEET E) = Ret srows
             /\ roster_of (clas data) srows = Ret roster
             /\ fst (Adk.push_daily_summary data E st) = Ret tt
             /\ added = EAuthorize :: ERead (COURSE_SHEET E) :: ERead (STUDENT_SHEET E) :: rest
             /\ creations rest = map Adk.push_jid roster
             /\ sublist (sends rest) (map (adk_push_message data) roster)
             /\ ((forall t jid, create_session E t jid = None) ->
                 sends rest = map (adk_push_message data) roster)).
Proof.
  unfold Adk.push_daily_summary, make_gspread, today_topic, students_for_class, read_sheet.
  run_monad.
  destruct (authorize E (trace st)) as [e|]; fields_of_state.
  { exists [EAuthorize]. repeat split; auto. }
  rewrite <- !app_assoc. cbn [app].
  destruct (get_all_records E (trace st ++ [EAuthorize]) (COURSE_SHEET E))
    as [rows|e] eqn:Hrows; fields_of_state.
  2:{ exists [EAuthorize; ERead (COURSE_SHEET E)]. repeat split; auto. }
  destruct (find_today (today E) rows) as [rec|] eqn:Hrec; fields_of_state.
  2:{ rewrite <- !app_assoc. cbn [app]. eexists. repeat split; auto. }
  rewrite <- !app_assoc. cbn [app].
  destruct (get_all_records E (trace st ++ [EAuthorize; ERead (COURSE_SHEET E)])
                            (STUDENT_SHEET E)) as [srows|e] eqn:Hsrows; fields_of_state.
  2:{ eexists. repeat split; auto. }
  destruct (roster_of (clas data) srows) as [roster|e] eqn:Hroster; fields_of_state.
  2:{ eexists. repeat split; auto. }
  match goal with
  | |- context [for_each roster ?f ?s] =>
      destruct (adk_push_loop E data roster s) as (rest & Hrun & Hc & Hsub & Hall & Hl & Hr & _)
  end.
  rewrite Hrun. fields_of_state. rewrite <- !app_assoc. cbn [app].
  eexists. split; [reflexivity|]. repeat split; auto.
  right. exists rows, rec, srows, roster, rest. repeat split; auto.
Qed.

Lemma added_by_intro {A} (m : M A) (st : state) (added : list effect) :
  trace (snd (m st)) = trace st ++ added -> added_by m st = added.
Proof. intros H. unfold added_by. rewrite H. apply drop_app_length. Qed.

Lemma added_by_intro_app {A} (m : M A) (st : state) (a b : list effect) :
  trace (snd (m st)) = (trace st ++ a) ++ b -> added_by m st = a ++ b.
Proof. rewrite <- app_assoc. apply added_by_intro. Qed.

(** What holds of the loop in [main.py]: one send is attempted per roster
    entry, in order, whether or not earlier sends failed, and the job
    completes. *)
Lemma main_push_one_send_per_student (E : env) (st : state) (rows srows : list row)
      (rec : lesson) (roster : list student) :
  authorize E (trace st) = None ->
  get_all_records E (trace st ++ [EAuthorize]) (COURSE_SHEET E) = Ret rows ->
  find_today (today E) rows = Some rec ->
  get_all_records E (trace st ++ [EAuthorize; ERead (COURSE_SHEET E)]) (STUDENT_SHEET E)
  = Ret srows ->
  roster_of (clas rec) srows = Ret roster ->
  fst (Main.push_daily_summary E st) = Ret tt
  /\ sends (added_by (Main.push_daily_summary E) st) = map (main_push_message rec) roster.
Proof.
  intros Ha Hr Hf Hs Hro.
  unfold added_by, Main.push_daily_summary, make_gspread, today_topic, students_for_class,
    read_sheet.
  run_monad. rewrite Ha. fields_of_state. rewrite <- ?app_assoc. cbn [app].
  rewrite Hr, Hf. fields_of_state. rewrite <- ?app_assoc. cbn [app].
  rewrite Hs, Hro. fields_of_state.
  match goal with
  | |- context [for_each roster ?f ?s] =>
      destruct (main_push_loop E rec roster s) as (rest & Hrun & Hsend & _)
  end.
  rewrite Hrun. fields_of_state. split; [reflexivity|].
  rewrite <- ?app_assoc. rewrite drop_app_length. cbn [app]. read_trace. exact Hsend.
Qed.

Lemma adk_push_run_found (data : lesson) (E : env) (st : state) (rows srows : list row)
      (rec : lesson) (roster : list student) :
  authorize E (trace st) = None ->
  get_all_records E (trace st ++ [EAuthorize]) (COURSE_SHEET E) = Ret rows ->
  find_today (today E) rows = Some rec ->
  get_all_records E (trace st ++ [EAuthorize; ERead (COURSE_SHEET E)]) (STUDENT_SHEET E)
  = Ret srows ->
  roster_of (clas data) srows = Ret roster ->
  fst (Adk.push_daily_summary data E st) = Ret tt
  /\ creations (added_by (Adk.push_daily_summary data E) st) = map Adk.push_jid roster
  /\ sublist (sends (added_by (Adk.push_daily_summary data E) st))
             (map (adk_push_message data) roster)
  /\ ((forall t jid, create_session E t jid = None) ->
      sends (added_by (Adk.push_daily_summary data E) st)
      = map (adk_push_message data) roster).
Proof.
  intros Ha Hr Hf Hs Hro.
  unfold added_by, Adk.push_daily_summary, make_gspread, today_topic, students_for_class,
    read_sheet.
  run_monad. rewrite Ha. fields_of_state. rewrite <- ?app_assoc. cbn [app].
  rewrite Hr, Hf. fields_of_state. rewrite <- ?app_assoc. cbn [app].
  rewrite Hs, Hro. fields_of_state.
  match goal with
  | |- context [for_each roster ?f ?s] =>
      destruct (adk_push_loop E data roster s) as (rest & Hrun & Hc & Hsub & Hall & _)
  end.
  rewrite Hrun. fields_of_state. split; [reflexivity|].
  rewrite <- ?app_assoc. rewrite drop_app_length. cbn [app]. read_trace. auto.
Qed.

Lemma adk_push_run_trace (data : lesson) (E : env) (st : state) (rows srows : list row)
      (rec : lesson) (roster : list student) :
  authorize E (trace st) = None ->
  get_all_records E (trace st ++ [EAuthorize]) (COURSE_SHEET E) = Ret rows ->
  find_today (today E) rows = Some rec ->
  get_all_records E (trace st ++ [EAuthorize; ERead (COURSE_SHEET E)]) (STUDENT_SHEET E)
  = Ret srows ->
  roster_of (clas data) srows = Ret roster ->
  exists rest,
    added_by (Adk.push_daily_summary data E) st
    = EAuthorize :: ERead (COURSE_SHEET E) :: ERead (STUDENT_SHEET E) :: rest
    /\ adk_loop_trace E data
         (trace st ++ [EAuthorize; ERead (COURSE_SHEET E); ERead (STUDENT_SHEET E)])
         roster rest.
Proof.
  intros Ha Hr Hf Hs Hro.
  unfold added_by, Adk.push_daily_summary, make_gspread, today_topic, students_for_class,
    read_sheet.
  run_monad. rewrite Ha. fields_of_state. rewrite <- ?app_assoc. cbn [app].
  rewrite Hr, Hf. fields_of_state. rewrite <- ?app_assoc. cbn [app].
  rewrite Hs, Hro. fields_of_state.
  match goal with
  | |- context [for_each roster ?f ?s] =>
      destruct (adk_push_loop E data roster s) as (rest & Hrun & _ & _ & _ & _ & _ & Hrel)
  end.
  rewrite Hrun. fields_of_state. exists rest.
  cbn [trace] in Hrel. rewrite <- ?app_assoc in Hrel. cbn [app] in Hrel.
  split; [|exact Hrel].
  rewrite <- ?app_assoc. rewrite drop_app_length. reflexivity.
Qed.

(** ** Recipient identifiers (C6, C10) *)

Lemma lstrip_plus_all (k : nat) (s : pystr) :
  lstrip [plus_sign] (repeat plus_sign k ++ s) = lstrip [plus_sign] s.
Proof. induction k as [|k IH]; [reflexivity|exact IH]. Qed.

(** Every roster entry comes from a row of the sheet that belongs to the
    class, and its phone is the cell without its leading plus signs. *)
Lemma roster_entry_origin (class_name : pyval) (srows : list row) (roster : list student)
      (stu : student) :
  roster_of class_name srows = Ret roster ->
  In stu roster ->
  exists r w, In r srows /\ in_class class_name r
              /\ r !! lit "Whatsapp Number" = Some w
              /\ phone stu = lstrip [plus_sign] (py_str w).
Proof.
  intros Hr Hin. apply roster_of_spec in Hr.
  apply list_elem_of_In in Hin.
  destruct (proj1 (list_elem_of_lookup _ _) Hin) as [i Hi].
  destruct (Forall2_lookup_r _ _ _ _ _ Hr Hi) as (r & Hri & _ & w & Hw & Hp).
  apply list_elem_of_lookup_2 in Hri. apply list_elem_of_filter in Hri as [Hc Hri].
  exists r, w. repeat split; auto. by apply list_elem_of_In.
Qed.

(** The identifiers follow the rows of the class, one by one. *)
Lemma roster_identifiers (suffix : pystr) (class_name : pyval) (srows : list row)
      (roster : list student) :
  Forall2 enrolled (filter (in_class class_name) srows) roster ->
  Forall2 (fun r jid => exists w, r !! lit "Whatsapp Number" = Some w
                                  /\ jid = lit "91" ++ lstrip [plus_sign] (py_str w) ++ suffix)
          (filter (in_class class_name) srows)
          (map (fun stu => lit "91" ++ phone stu ++ suffix) roster).
Proof.
  induction 1 as [|r stu rs l (_ & w & Hw & Hp) _ IH]; simpl; constructor; [|exact IH].
  exists w. split; [exact Hw|]. by rewrite Hp.
Qed.

(** C6. Normalisation strips the leading plus of a roster phone
    ("+911234567890" becomes "911234567890").  On a run of the push job that
    reads the lesson and the roster, the students are the rows of the sheet
    that belong to the class, in sheet order, and for every one of them the
    identifier used is built by one fixed rule from the "Whatsapp Number"
    cell of the row without its leading plus signs: the prefix "91" followed
    by the phone in [main.py], where one message is sent to each; the same
    followed by "@c.us" in the ADK variant, where it names the session
    created for the student and addresses the message sent to them. *)
Theorem C6_recipient_identifier_rule (E : env) (data : lesson) (st : state)
        (rows srows : list row) (rec : lesson) :
  authorize E (trace st) = None ->
  get_all_records E (trace st ++ [EAuthorize]) (COURSE_SHEET E) = Ret rows ->
  find_today (today E) rows = Some rec ->
  get_all_records E (trace st ++ [EAuthorize; ERead (COURSE_SHEET E)]) (STUDENT_SHEET E)
  = Ret srows ->
  lstrip [plus_sign] (lit "+911234567890") = lit "911234567890"
  /\ (forall roster,
         roster_of (clas rec) srows = Ret roster ->
         Forall2 enrolled (filter (in_class (clas rec)) srows) roster
         /\ map fst (sends (added_by (Main.push_daily_summary E) st))
            = map (fun stu => lit "91" ++ phone stu) roster
         /\ Forall2 (fun r jid =>
                       exists w, r !! lit "Whatsapp Number" = Some w
                                 /\ jid = lit "91" ++ lstrip [plus_sign] (py_str w))
                    (filter (in_class (clas rec)) srows)
                    (map fst (sends (added_by (Main.push_daily_summary E) st))))
  /\ (forall roster,
         roster_of (clas data) srows = Ret roster ->
         Forall2 enrolled (filter (in_class (clas data)) srows) roster
         /\ creations (added_by (Adk.push_daily_summary data E) st)
            = map (fun stu => lit "91" ++ phone stu ++ lit "@c.us") roster
         /\ Forall2 (fun r jid =>
                       exists w, r !! lit "Whatsapp Number" = Some w
                                 /\ jid = lit "91" ++ lstrip [plus_sign] (py_str w)
                                            ++ lit "@c.us")
                    (filter (in_class (clas data)) srows)
                    (creations (added_by (Adk.push_daily_summary data E) st))
         /\ sublist (map fst (sends (added_by (Adk.push_daily_summary data E) st)))
                    (creations (added_by (Adk.push_daily_summary data E) st))
         /\ ((forall t jid, create_session E t jid = None) ->
             map fst (sends (added_by (Adk.push_daily_summary data E) st))
             = creations (added_by (Adk.push_daily_summary data E) st))).
Proof.
  intros Ha Hr Hf Hs. split; [vm_compute; reflexivity|]. split; intros roster Hro.
  - pose proof (roster_of_spec _ _ _ Hro) as Hen.
    destruct (main_push_one_send_per_student E st rows srows rec roster Ha Hr Hf Hs Hro)
      as [_ Hsends].
    assert (Hjids : map fst (sends (added_by (Main.push_daily_summary E) st))
                    = map (fun stu => lit "91" ++ phone stu) roster).
    { rewrite Hsends, map_map. reflexivity. }
    split; [exact Hen|]. split; [exact Hjids|].
    rewrite Hjids.
    pose proof (roster_identifiers [] _ _ _ Hen) as H.
    assert (Heq : forall l : list student,
               map (fun stu => lit "91" ++ phone stu ++ []) l
               = map (fun stu => lit "91" ++ phone stu) l).
    { intros l. apply map_ext. intros stu. by rewrite app_nil_r. }
    rewrite Heq in H.
    eapply Forall2_impl; [exact H|].
    intros r jid (w & Hw & ->). exists w. by rewrite app_nil_r.
  - pose proof (roster_of_spec _ _ _ Hro) as Hen.
    destruct (adk_push_run_found data E st rows srows rec roster Ha Hr Hf Hs Hro)
      as (_ & Hc & Hsub & Hall).
    assert (Hjids : creations (added_by (Adk.push_daily_summary data E) st)
                    = map (fun stu => lit "91" ++ phone stu ++ lit "@c.us") roster).
    { rewrite Hc. reflexivity. }
    assert (Hmsg : map fst (map (adk_push_message data) roster)
                   = map (fun stu => lit "91" ++ phone stu ++ lit "@c.us") roster).
    { rewrite map_map. reflexivity. }
    split; [exact Hen|]. split; [exact Hjids|]. rewrite Hjids.
    split; [by apply roster_identifiers|]. split.
    + rewrite <- Hmsg. by apply (fmap_sublist fst).
    + intros Hok. by rewrite (Hall Hok).
Qed.

Lemma C6_witness :
  map fst (sends (added_by (Main.push_daily_summary monday_env) st0))
  = map (fun stu => lit "91" ++ phone stu) [asha]
  /\ map fst (sends (added_by (Main.push_daily_summary monday_env) st0))
     = [lit "91911234567890"].
Proof.
  split; [|vm_compute; reflexivity].
  apply (proj1 (proj2 (C6_recipient_identifier_rule monday_env photosynthesis st0
                         course_plan roster_sheet photosynthesis
                         ltac:(vm_compute; reflexivity) ltac:(vm_compute; reflexivity)
                         ltac:(vm_compute; reflexivity) ltac:(vm_compute; reflexivity)))
               [asha]).
  vm_compute. reflexivity.
Defined.

(** C10. The prefix is prepended whatever the phone starts with: the roster
    phone "+911234567890" is normalised to "911234567890" and the push job
    addresses "91911234567890" ([main.py]; the ADK variant appends "@c.us"),
    with the country code twice; and normalisation removes every leading
    plus sign, not only the first. *)
Theorem C10_prefix_unconditional :
  roster_of (VStr (lit "7A")) roster_sheet = Ret [asha]
  /\ map fst (sends (added_by (Main.push_daily_summary
                                 (calm_env monday course_plan roster_sheet [])) st0))
     = [lit "91911234567890"]
  /\ map fst (sends (added_by (Adk.push_daily_summary photosynthesis
                                 (calm_env monday course_plan roster_sheet [])) st0))
     = [lit "91911234567890@c.us"]
  /\ (forall stu, Main.push_jid stu = lit "91" ++ phone stu
                  /\ Adk.push_jid stu = lit "91" ++ phone stu ++ lit "@c.us")
  /\ (forall k s, lstrip [plus_sign] (repeat plus_sign k ++ s) = lstrip [plus_sign] s)
  /\ (forall s, starts_with [plus_sign] (lstrip [plus_sign] s) = false)
  /\ lstrip [plus_sign] (lit "++911234567890") = lit "911234567890".
Proof.
  split; [vm_compute; reflexivity|].
  split; [vm_compute; reflexivity|].
  split; [vm_compute; reflexivity|].
  split; [intros stu; split; reflexivity|].
  split; [apply lstrip_plus_all|].
  split; [|vm_compute; reflexivity].
  intros s. destruct (lstrip [plus_sign] s) as [|c r] eqn:Hs; [reflexivity|].
  apply lstrip_plus_head in Hs. cbn [starts_with]. apply N.eqb_neq in Hs.
  rewrite N.eqb_sym, Hs. reflexivity.
Qed.

(** ** No lesson today (C5) *)

Lemma find_today_none (today : pystr) (rows : list row) :
  Forall (fun r => py_str (row_get r (lit "Schedule Date")) <> today) rows ->
  find_today today rows = None.
Proof.
  induction 1 as [|r rest Hr _ IH]; [reflexivity|].
  simpl. by rewrite bool_decide_eq_false_2.
Qed.

Lemma find_today_some (today : pystr) (rows : list row) (rec : lesson) :
  find_today today rows = Some rec ->
  exists r before after,
    rows = before ++ r :: after
    /\ Forall (fun r => py_str (row_get r (lit "Schedule Date")) <> today) before
    /\ py_str (row_get r (lit "Schedule Date")) = today
    /\ rec = Lesson (row_get r (lit "Topic")) (row_get r (lit "Class"))
                    (row_get r (lit "Teacher")) (row_get r (lit "Subject")).
Proof.
  induction rows as [|r rest IH]; simpl; [discriminate|].
  case_bool_decide as Hd.
  - intros [= <-]. exists r, [], rest. repeat split; auto.
  - intros H. destruct (IH H) as (r' & before & after & -> & Hb & Hr' & Hrec).
    exists r', (r :: before), after. repeat split; auto.
Qed.

(** ** The prompt composer never raises *)

Lemma main_prompt_total (topic subject teacher clas : pyval) :
  exists ps,
    scan None Main.SYSTEM_PROMPT = Some ps
    /\ py_format Main.SYSTEM_PROMPT (prompt_kwargs topic subject teacher clas)
       = Ret (render (prompt_value topic subject teacher clas) ps).
Proof.
  destruct templates_scan as [(ps & Hs & Hf) _].
  exists ps. split; [exact Hs|].
  apply py_format_scan; [exact Hs|].
  intros f Hin. apply prompt_field_bound. by apply Hf.
Qed.

Lemma adk_prompt_total (topic subject teacher clas : pyval) :
  exists ps,
    scan None Adk.SYSTEM_PROMPT_TMPL = Some ps
    /\ py_format Adk.SYSTEM_PROMPT_TMPL (prompt_kwargs topic subject teacher clas)
       = Ret (render (prompt_value topic subject teacher clas) ps).
Proof.
  destruct templates_scan as [_ (ps & Hs & Hf)].
  exists ps. split; [exact Hs|].
  apply py_format_scan; [exact Hs|].
  intros f Hin. apply prompt_field_bound. by apply Hf.
Qed.

(** ** The inbound handler of [main.py] *)

Lemma main_listener_no_lesson (E : env) (st : state) (m : message) (rows : list row)
      (text : pystr) :
  isGroupMsg m = false ->
  Main.body_text (msg_body m) = Ret text ->
  authorize E (trace st) = None ->
  get_all_records E (trace st ++ [EAuthorize]) (COURSE_SHEET E) = Ret rows ->
  find_today (today E) rows = None ->
  Main.incoming_listener E (Some m) st
  = (outcome_of (reply E (trace st ++ [EAuthorize; ERead (COURSE_SHEET E)])
                       (msg_from m) NO_CLASS_REPLY (msg_id m)),
     State (trace st ++ [EAuthorize; ERead (COURSE_SHEET E);
                         EReply (msg_from m) NO_CLASS_REPLY (msg_id m)])
           (chat_pool st) (chats_made st)).
Proof.
  intros Hg Hb Ha Hr Hf.
  unfold Main.incoming_listener, make_gspread, today_topic, read_sheet, client_reply.
  rewrite Hg, Hb. run_monad. rewrite Ha. fields_of_state.
  rewrite Hr, Hf. fields_of_state. rewrite <- !app_assoc. cbn [app].
  destruct (reply E _ _ _ _); fields_of_state; rewrite <- ?app_assoc; reflexivity.
Qed.


Lemma main_listener_lesson (E : env) (st : state) (m : message) (rows : list row)
      (text : pystr) (rec : lesson) :
  isGroupMsg m = false ->
  Main.body_text (msg_body m) = Ret text ->
  authorize E (trace st) = None ->
  get_all_records E (trace st ++ [EAuthorize]) (COURSE_SHEET E) = Ret rows ->
  find_today (today E) rows = Some rec ->
  exists prompt,
    py_format Main.SYSTEM_PROMPT
              (prompt_kwargs (topic rec) (subject rec) (teacher rec) (clas rec)) = Ret prompt
    /\ let chat := default (chats_made st) (chat_pool st !! msg_from m) in
       let pre := main_prelude E st prompt (msg_from m) chat in
       trace (snd (Main.incoming_listener E (Some m) st))
       = (trace st ++ pre)
           ++ ESendMessage chat text :: main_answer_tail E (trace st ++ pre) chat m text
       /\ chat_pool (snd (Main.incoming_listener E (Some m) st))
          = match chat_pool st !! msg_from m with
            | Some _ => chat_pool st
            | None => <[msg_from m := chats_made st]> (chat_pool st)
            end
       /\ chats_made (snd (Main.incoming_listener E (Some m) st)) = S (chats_made st).
Proof.
  intros Hg Hb Ha Hr Hf.
  destruct (main_prompt_total (topic rec) (subject rec) (teacher rec) (clas rec))
    as (ps & _ & Hp).
  eexists. split; [exact Hp|].
  unfold Main.incoming_listener, make_gspread, today_topic, read_sheet, client_reply,
    Main.new_chat, Main.start_chat, Main.pool_setdefault, Main.chat_send_message,
    main_answer_tail, main_prelude, main_dump.
  rewrite Hg, Hb. run_monad. rewrite Ha. fields_of_state.
  rewrite Hr, Hf, Hp. fields_of_state. rewrite <- ?app_assoc. cbn [app].
  destruct (chat_pool st !! msg_from m) as [c|]; fields_of_state; cbn [default];
    rewrite <- ?app_assoc; cbn [app];
    (destruct (send_message E _ _ _); fields_of_state;
     match goal with
     | |- context [reply E ?t ?j ?x ?i] => case (reply E t j x i); [intros ?|]
     end; fields_of_state;
     rewrite <- ?app_assoc; cbn [app]; repeat split; reflexivity).
Qed.

(** ** The inbound handler of the ADK variant *)

Ltac split_reply E :=
  rewrite <- ?app_assoc; cbn [app];
  match goal with
  | |- context [reply E ?t ?j ?x ?i] => case (reply E t j x i); [intros ?|]
  end.

(** A private message with text: whatever the services do, the handler creates
    no session, and it either completes its [try] block or prints the error
    and attempts the fallback reply; only a failure of that last reply
    leaves the handler. *)
Lemma adk_handler_cases (E : env) (st : state) (m : message) :
  isGroupMsg m = false ->
  Adk.is_empty (Adk.body_text (msg_body m)) = false ->
  exists inner,
    creations inner = []
    /\ ((Adk.handle_message E (Some m) st
         = (Ret tt, State (trace st ++ inner) (chat_pool st) (chats_made st)))
        \/ exists e,
             Adk.handle_message E (Some m) st
             = (outcome_of (reply E (trace st ++ inner
                                     ++ [EPrint (lit "[Handler Error] " ++ exn_str e)])
                                  (msg_from m) Adk.HANDLER_ERROR_REPLY (msg_id m)),
                State (trace st ++ inner ++ adk_fallback m e)
                      (chat_pool st) (chats_made st))).
Proof.
  intros Hg Hb.
  unfold Adk.handle_message, make_gspread, today_topic, read_sheet, client_reply, adk_fallback.
  rewrite Hg, Hb. run_monad.
  destruct (authorize E (trace st)) as [e|]; fields_of_state.
  { exists [EAuthorize]. split; [reflexivity|]. right. exists e.
    rewrite <- !app_assoc. cbn [app].
    split_reply E; fields_of_state; rewrite <- ?app_assoc; reflexivity. }
  rewrite <- ?app_assoc. cbn [app].
  destruct (get_all_records E _ _) as [rows|e]; fields_of_state.
  2:{ exists [EAuthorize; ERead (COURSE_SHEET E)]. split; [reflexivity|]. right. exists e.
      rewrite <- ?app_assoc. cbn [app].
      split_reply E; fields_of_state; rewrite <- ?app_assoc; reflexivity. }
  destruct (find_today (today E) rows) as [rec|]; fields_of_state.
  2:{ exists [EAuthorize; ERead (COURSE_SHEET E);
              EReply (msg_from m) NO_CLASS_REPLY (msg_id m)].
      split; [reflexivity|].
      destruct (reply E _ _ _ _) as [e|] eqn:Hr1; fields_of_state;
        rewrite <- ?app_assoc; cbn [app].
      - right. exists e.
        split_reply E; fields_of_state; rewrite <- ?app_assoc; reflexivity.
      - left. reflexivity. }
  destruct (get_session E _ _) as [e|]; cbn [returning]; fields_of_state;
    rewrite <- ?app_assoc; cbn [app].
  { exists [EAuthorize; ERead (COURSE_SHEET E); EGetSession (msg_from m)].
    split; [reflexivity|]. right. exists e.
    split_reply E; fields_of_state; rewrite <- ?app_assoc; reflexivity. }
  destruct (Adk.first_final _ _) as [answer|e1]; fields_of_state;
    rewrite <- ?app_assoc; cbn [app].
  - exists (adk_prelude E st (msg_from m)
            ++ [ERunnerRun (msg_from m) (Adk.body_text (msg_body m));
                EReply (msg_from m) answer (msg_id m)]).
    unfold adk_prelude, adk_dump. cbn [app].
    split; [reflexivity|].
    destruct (reply E _ _ _ _) as [e|] eqn:Hr1; fields_of_state;
      rewrite <- ?app_assoc; cbn [app].
    + right. exists e.
      split_reply E; fields_of_state; rewrite <- ?app_assoc; reflexivity.
    + left. reflexivity.
  - exists (adk_prelude E st (msg_from m)
            ++ [ERunnerRun (msg_from m) (Adk.body_text (msg_body m));
                EPrint (lit "[LLM Error] " ++ exn_str e1);
                EReply (msg_from m) Adk.LLM_ERROR_REPLY (msg_id m)]).
    unfold adk_prelude, adk_dump. cbn [app].
    split; [reflexivity|].
    destruct (reply E _ _ _ _) as [e|] eqn:Hr1; fields_of_state;
      rewrite <- ?app_assoc; cbn [app].
    + right. exists e.
      split_reply E; fields_of_state; rewrite <- ?app_assoc; reflexivity.
    + left. reflexivity.
Qed.






(** ** Blank bodies *)

Lemma lstrip_by_nil_iff (p : N -> bool) (s : pystr) :
  lstrip_by p s = [] <-> forallb p s = true.
Proof.
  induction s as [|c r IH]; simpl; [tauto|].
  destruct (p c); simpl; [exact IH|]. split; discriminate.
Qed.

Lemma forallb_lstrip_by (p : N -> bool) (s : pystr) :
  forallb p (lstrip_by p s) = forallb p s.
Proof.
  induction s as [|c r IH]; simpl; [reflexivity|].
  destruct (p c) eqn:Hc; simpl; [exact IH|]. by rewrite Hc.
Qed.

Lemma forallb_rev (p : N -> bool) (s : pystr) : forallb p (rev s) = forallb p s.
Proof.
  induction s as [|c r IH]; [reflexivity|].
  simpl. rewrite forallb_app, IH. simpl. rewrite andb_true_r. apply andb_comm.
Qed.

Lemma strip_nil_iff (s : pystr) : strip s = [] <-> forallb isspace s = true.
Proof.
  unfold strip, rstrip_by.
  rewrite <- (forallb_lstrip_by isspace s), <- (forallb_rev isspace (lstrip_by isspace s)).
  rewrite <- lstrip_by_nil_iff.
  split; intros H.
  - apply (f_equal (@rev N)) in H. by rewrite rev_involutive in H.
  - by rewrite H.
Qed.

Lemma is_empty_nil (s : pystr) : Adk.is_empty s = true <-> s = [].
Proof. destruct s; simpl; split; congruence. Qed.

(** ** Messages without words (C1) *)

Lemma llm_calls_answer_tails (E : env) (t : list effect) (chat : nat) (m : message)
      (text : pystr) :
  llm_calls (main_answer_tail E t chat m text) = []
  /\ llm_calls (adk_answer_tail E t m text) = [].
Proof.
  unfold main_answer_tail, adk_answer_tail.
  split; [destruct (send_message E t chat text)|destruct (Adk.first_final _ _)]; reflexivity.
Qed.




(** ** Failures inside the handlers (C2) *)





(** ** The record used by the push job (C3, C4) *)

(** What [main.py] does: whenever the job sends anything, the lesson record
    was read from the course plan during the same run, after authorising,
    and every body is formatted from that record. *)
Lemma main_push_record_is_fresh (E : env) (st : state) (jid body : pystr) :
  In (jid, body) (sends (added_by (Main.push_daily_summary E) st)) ->
  exists rows rec stu rest,
    added_by (Main.push_daily_summary E) st
    = EAuthorize :: ERead (COURSE_SHEET E) :: rest
    /\ get_all_records E (trace st ++ [EAuthorize]) (COURSE_SHEET E) = Ret rows
    /\ find_today (today E) rows = Some rec
    /\ (jid, body) = main_push_message rec stu.
Proof.
  destruct (main_push_cases E st) as (added & Ht & _ & _ & _ & _ & Hcases).
  rewrite (added_by_intro _ _ _ Ht). intros Hin.
  destruct Hcases as [Hnone|(rows & rec & srows & roster & rest & Hr & Hf & _ & _ & _ & -> & Hs)].
  { rewrite Hnone in Hin. destruct Hin. }
  revert Hin. read_trace. rewrite Hs. intros Hin.
  apply in_map_iff in Hin as (stu & Hmsg & _).
  exists rows, rec, stu, (ERead (STUDENT_SHEET E) :: rest). by repeat split.
Qed.

(** C3: the ADK variant breaks it.  The process starts on Monday, when
    [agent_setup] binds [data] to Monday's record.  On Tuesday the job reads
    Tuesday's record (Fractions, class 8B) and still formats the body from
    [data]: the one message sent speaks of Photosynthesis.  On the same input
    [main.py] sends the text of Tuesday's record. *)
Theorem C3_adk_push_uses_startup_record :
  (exists prompt st1,
      Adk.agent_setup monday_env st0 = (Ret (photosynthesis, prompt), st1)
      /\ find_today (today tuesday_env) course_plan = Some fractions
      /\ In (ERead (lit "Course Plan"))
            (added_by (Adk.push_daily_summary photosynthesis tuesday_env) st1)
      /\ sends (added_by (Adk.push_daily_summary photosynthesis tuesday_env) st1)
         = [adk_push_message photosynthesis asha])
  /\ contains (lit "Photosynthesis") (snd (adk_push_message photosynthesis asha)) = true
  /\ contains (lit "Fractions") (snd (adk_push_message photosynthesis asha)) = false
  /\ sends (added_by (Main.push_daily_summary tuesday_env) st0)
     = [main_push_message fractions bina].
Proof.
  split; [|repeat split; vm_compute; reflexivity].
  eexists; eexists. split; [vm_compute; reflexivity|].
  split; [vm_compute; reflexivity|].
  split; [vm_compute; tauto|].
  vm_compute; reflexivity.
Qed.

(** C4: the ADK variant breaks it, by the same defect.  The roster is fetched
    for the class of [data], not for the class of the lesson matched during
    the run: on Tuesday the matched class is 8B, its student Bina gets no
    message, and Asha of class 7A gets one.  [main.py] sends exactly one
    message, to Bina. *)
Theorem C4_adk_push_uses_startup_class :
  find_today (today tuesday_env) course_plan = Some fractions
  /\ roster_of (clas fractions) roster_sheet = Ret [bina]
  /\ map fst (sends (added_by (Adk.push_daily_summary photosynthesis tuesday_env) st0))
     = [Adk.push_jid asha]
  /\ ~ In (Adk.push_jid bina)
          (map fst (sends (added_by (Adk.push_daily_summary photosynthesis tuesday_env) st0)))
  /\ map fst (sends (added_by (Main.push_daily_summary tuesday_env) st0))
     = [Main.push_jid bina].
Proof.
  repeat split; try (vm_compute; reflexivity).
  vm_compute. intros [H|[]]. discriminate.
Qed.

(** ** The callers of the lookup (C9) *)

Lemma today_topic_run (E : env) (st : state) :
  today_topic E st
  = (match get_all_records E (trace st) (COURSE_SHEET E) with
     | Ret rows => Ret (find_today (today E) rows)
     | Exc e => Exc e
     end,
     emit (ERead (COURSE_SHEET E)) st).
Proof.
  unfold today_topic, read_sheet. run_monad.
  destruct (get_all_records E (trace st) (COURSE_SHEET E)); reflexivity.
Qed.

(** C9: the ADK variant breaks it at start-up.  On a day without a lesson the
    lookup returns [None] without raising, and the push job and the handler
    treat that as "no class"; the module-level set-up subscripts the result
    and raises [TypeError], so the process does not start. *)
Theorem C9_adk_setup_rejects_none :
  fst (today_topic sunday_env (emit EAuthorize st0)) = Ret None
  /\ fst (Adk.agent_setup sunday_env st0)
     = Exc (Exn TypeError (lit "'NoneType' object is not subscriptable"))
  /\ added_by (Adk.agent_setup sunday_env) st0 = [EAuthorize; ERead (lit "Course Plan")]
  /\ fst (Adk.push_daily_summary photosynthesis sunday_env st0) = Ret tt
  /\ fst (Main.push_daily_summary sunday_env st0) = Ret tt.
Proof. repeat split; vm_compute; reflexivity. Qed.

(** ** The prompt composer (C8) *)

(** C8, as stated, fails in its second half.  A row of the course plan
    without a "Topic" column yields a record whose topic is [None]; the
    composer does not raise, it writes the text "None" into the prompt, in
    [main.py] and at the start-up of the ADK variant alike. *)
Lemma C8_counterexample :
  find_today (lit monday) course_plan_without_topic
  = Some (Lesson VNone (VStr (lit "7A")) (VStr (lit "Ms. Rao")) (VStr (lit "Science")))
  /\ fst (Main.new_chat VNone (VStr (lit "Science")) (VStr (lit "Ms. Rao")) (VStr (lit "7A"))
                        st0) = Ret 0%nat
  /\ (exists prompt,
         py_format Main.SYSTEM_PROMPT
                   (prompt_kwargs VNone (VStr (lit "Science")) (VStr (lit "Ms. Rao"))
                                  (VStr (lit "7A"))) = Ret prompt
         /\ contains (lit "student explaining the *None*") prompt = true)
  /\ (exists data prompt,
         fst (Adk.agent_setup (calm_env monday course_plan_without_topic roster_sheet []) st0)
         = Ret (data, prompt)
         /\ topic data = VNone
         /\ contains (lit "Today’s topic is: *None*") prompt = true).
Proof.
  split; [vm_compute; reflexivity|].
  split; [vm_compute; reflexivity|].
  split.
  - eexists. split; vm_compute; reflexivity.
  - eexists; eexists. split; [vm_compute; reflexivity|]. split; vm_compute; reflexivity.
Qed.

(** C8, amended.  The prompt composer is pure string substitution: each
    template reads as literal text with holes, the holes are exactly the four
    fields TOPIC, SUBJECT, TEACHER and CLASS, and the prompt is the template
    with every hole replaced by [str] of the field.  It validates nothing
    and never raises: a field that is [None] is written as "None". *)
Theorem C8_prompt_is_substitution (topic subject teacher clas : pyval) :
  (exists ps,
      scan None Main.SYSTEM_PROMPT = Some ps
      /\ (forall f, In f (fields ps) <-> In f prompt_fields)
      /\ py_format Main.SYSTEM_PROMPT (prompt_kwargs topic subject teacher clas)
         = Ret (render (prompt_value topic subject teacher clas) ps))
  /\ (exists ps,
         scan None Adk.SYSTEM_PROMPT_TMPL = Some ps
         /\ (forall f, In f (fields ps) <-> In f prompt_fields)
         /\ py_format Adk.SYSTEM_PROMPT_TMPL (prompt_kwargs topic subject teacher clas)
            = Ret (render (prompt_value topic subject teacher clas) ps))
  /\ prompt_value VNone subject teacher clas (lit "TOPIC") = lit "None"
  /\ prompt_value topic subject teacher clas (lit "TOPIC") = py_str topic
  /\ prompt_value topic subject teacher clas (lit "SUBJECT") = py_str subject
  /\ prompt_value topic subject teacher clas (lit "TEACHER") = py_str teacher
  /\ prompt_value topic subject teacher clas (lit "CLASS") = py_str clas.
Proof.
  destruct templates_scan as [(ps1 & Hs1 & Hf1) (ps2 & Hs2 & Hf2)].
  split; [|split; [|repeat split; reflexivity]].
  - exists ps1. repeat split; try apply Hf1; auto.
    apply py_format_scan; [exact Hs1|].
    intros f Hin. apply prompt_field_bound. by apply Hf1.
  - exists ps2. repeat split; try apply Hf2; auto.
    apply py_format_scan; [exact Hs2|].
    intros f Hin. apply prompt_field_bound. by apply Hf2.
Qed.

(** ** The conversation store (C7) *)

(** The handler of [main.py] changes the pool in one way only: it binds the
    sender to the chat object it has just created, and only when the sender
    has no entry yet. *)
Lemma main_listener_pool (E : env) (msg : option message) (st : state) :
  chat_pool (snd (Main.incoming_listener E msg st)) = chat_pool st
  \/ exists m, msg = Some m
               /\ chat_pool st !! msg_from m = None
               /\ chat_pool (snd (Main.incoming_listener E msg st))
                  = <[msg_from m := chats_made st]> (chat_pool st).
Proof.
  destruct msg as [m|]; [|by left].
  unfold Main.incoming_listener, make_gspread, today_topic, read_sheet, client_reply,
    Main.new_chat, Main.start_chat, Main.pool_setdefault, Main.chat_send_message.
  destruct (isGroupMsg m); [by left|].
  destruct (Main.body_text (msg_body m)) as [text|e]; run_monad; [|by left].
  destruct (authorize E (trace st)); fields_of_state; [by left|].
  destruct (get_all_records E _ _) as [rows|e]; fields_of_state; [|by left].
  destruct (find_today (today E) rows) as [rec|]; fields_of_state.
  2:{ match goal with
      | |- context [reply E ?t ?j ?x ?i] => case (reply E t j x i); [intros ?|]
      end; by left. }
  destruct (main_prompt_total (topic rec) (subject rec) (teacher rec) (clas rec))
    as (ps & _ & ->).
  fields_of_state.
  destruct (chat_pool st !! msg_from m) as [c|] eqn:Hc; fields_of_state.
  - left.
    destruct (send_message E _ _ _); fields_of_state;
      match goal with
      | |- context [reply E ?t ?j ?x ?i] => case (reply E t j x i); [intros ?|]
      end; reflexivity.
  - right. exists m. split; [reflexivity|]. split; [exact Hc|].
    destruct (send_message E _ _ _); fields_of_state;
      match goal with
      | |- context [reply E ?t ?j ?x ?i] => case (reply E t j x i); [intros ?|]
      end; reflexivity.
Qed.

Lemma main_handle_pool_mono (ev : Main.event) (st : state) (jid : pystr) (c : nat) :
  chat_pool st !! jid = Some c ->
  chat_pool (snd (Main.handle ev st)) !! jid = Some c.
Proof.
  intros Hc. destruct ev as [E|E msg]; simpl.
  - destruct (main_push_cases E st) as (added & _ & -> & _). exact Hc.
  - destruct (main_listener_pool E msg st) as [->|(m & _ & Hnone & ->)]; [exact Hc|].
    rewrite lookup_insert_ne; [exact Hc|]. intros <-. congruence.
Qed.

(** An entry of the pool is never removed or replaced. *)
Lemma main_run_pool_mono (evs : list Main.event) :
  forall (st : state) (jid : pystr) (c : nat),
    chat_pool st !! jid = Some c ->
    chat_pool (Main.run evs st) !! jid = Some c.
Proof.
  induction evs as [|ev rest IH]; intros st jid c Hc; simpl; [exact Hc|].
  apply IH. by apply main_handle_pool_mono.
Qed.

(** The ADK handler never creates a session, whatever the message. *)
Lemma adk_handler_creates_nothing (E : env) (msg : option message) (st : state) :
  creations (added_by (Adk.handle_message E msg) st) = [].
Proof.
  assert (Hsame : forall s : state, added_by (fun s' => (Ret tt, s')) s = []).
  { intros s. unfold added_by. cbn [snd]. by rewrite drop_all. }
  destruct msg as [m|]; [|apply (f_equal creations (Hsame st))].
  destruct (isGroupMsg m) eqn:Hg.
  { unfold Adk.handle_message. rewrite Hg. apply (f_equal creations (Hsame st)). }
  destruct (Adk.is_empty (Adk.body_text (msg_body m))) eqn:Hb.
  { unfold Adk.handle_message. rewrite Hg, Hb. apply (f_equal creations (Hsame st)). }
  destruct (adk_handler_cases E st m Hg Hb) as (inner & Hc & [Hok|(e & Hfail)]).
  - erewrite added_by_intro; [exact Hc|]. rewrite Hok. reflexivity.
  - erewrite added_by_intro; [|rewrite Hfail; reflexivity].
    rewrite creations_app, Hc. reflexivity.
Qed.

(** C7, as stated, fails.  In [main.py] the first inbound message of a
    recipient creates no session when no lesson is scheduled that day.  In
    the ADK variant the handler creates no session at all: sessions are
    created by the push job, one per student of the roster, and again on
    every later run of the job. *)
Lemma C7_counterexample :
  chat_pool (snd (Main.incoming_listener sunday_env (Some hello_msg) st0)) !! asha_jid = None
  /\ fst (Main.incoming_listener sunday_env (Some hello_msg) st0) = Ret tt
  /\ creations (added_by (Adk.handle_message monday_env (Some hello_msg)) st0) = []
  /\ creations (added_by (Adk.push_daily_summary photosynthesis monday_env) st0)
     = [Adk.push_jid asha]
  /\ creations (added_by (Adk.push_daily_summary photosynthesis monday_env)
                         (snd (Adk.push_daily_summary photosynthesis monday_env st0)))
     = [Adk.push_jid asha].
Proof. repeat split; vm_compute; reflexivity. Qed.

(** C7, amended.  In [main.py] a chat object is created and stored for a
    recipient by the first private message of that recipient that is handled
    while a lesson is scheduled (a message handled on a day without a lesson
    creates none and leaves the pool as it is); the entry is never removed or
    replaced afterwards, whatever the process handles next, and every later
    such message of the same recipient is sent to that same object and
    leaves the pool as it is.  In the ADK variant the handler creates no
    session; every run of the push job that reads the lesson and the roster
    creates the sessions, one per roster entry, in roster order. *)
Theorem C7_chat_pool_lifecycle (E : env) (st : state) (m : message) (rows : list row)
        (rec : lesson) (text : pystr) :
  isGroupMsg m = false ->
  Main.body_text (msg_body m) = Ret text ->
  authorize E (trace st) = None ->
  get_all_records E (trace st ++ [EAuthorize]) (COURSE_SHEET E) = Ret rows ->
  find_today (today E) rows = Some rec ->
  chat_pool st !! msg_from m = None ->
  let st1 := snd (Main.incoming_listener E (Some m) st) in
  chat_pool st1 !! msg_from m = Some (chats_made st)
  /\ llm_calls (added_by (Main.incoming_listener E (Some m)) st)
     = [ESendMessage (chats_made st) text]
  /\ (forall evs, chat_pool (Main.run evs st1) !! msg_from m = Some (chats_made st))
  /\ (forall evs E' m' rows' rec' text',
         let st2 := Main.run evs st1 in
         isGroupMsg m' = false ->
         msg_from m' = msg_from m ->
         Main.body_text (msg_body m') = Ret text' ->
         authorize E' (trace st2) = None ->
         get_all_records E' (trace st2 ++ [EAuthorize]) (COURSE_SHEET E') = Ret rows' ->
         find_today (today E') rows' = Some rec' ->
         llm_calls (added_by (Main.incoming_listener E' (Some m')) st2)
         = [ESendMessage (chats_made st) text']
         /\ chat_pool (snd (Main.incoming_listener E' (Some m') st2)) = chat_pool st2)
  /\ (forall E' m' st' rows' text',
         isGroupMsg m' = false ->
         Main.body_text (msg_body m') = Ret text' ->
         authorize E' (trace st') = None ->
         get_all_records E' (trace st' ++ [EAuthorize]) (COURSE_SHEET E') = Ret rows' ->
         find_today (today E') rows' = None ->
         chat_pool (snd (Main.incoming_listener E' (Some m') st')) = chat_pool st'
         /\ chats_made (snd (Main.incoming_listener E' (Some m') st')) = chats_made st'
         /\ added_by (Main.incoming_listener E' (Some m')) st'
            = [EAuthorize; ERead (COURSE_SHEET E');
               EReply (msg_from m') NO_CLASS_REPLY (msg_id m')])
  /\ (forall E' msg st', creations (added_by (Adk.handle_message E' msg) st') = [])
  /\ (forall data E' st' rows' rec' srows roster,
         authorize E' (trace st') = None ->
         get_all_records E' (trace st' ++ [EAuthorize]) (COURSE_SHEET E') = Ret rows' ->
         find_today (today E') rows' = Some rec' ->
         get_all_records E' (trace st' ++ [EAuthorize; ERead (COURSE_SHEET E')])
                         (STUDENT_SHEET E') = Ret srows ->
         roster_of (clas data) srows = Ret roster ->
         creations (added_by (Adk.push_daily_summary data E') st')
         = map Adk.push_jid roster).
Proof.
  intros Hg Hb Ha Hr Hf Hnone st1.
  destruct (main_listener_lesson E st m rows text rec Hg Hb Ha Hr Hf)
    as (p & _ & Ht & Hpool & _).
  cbn zeta in Ht. rewrite Hnone in Hpool, Ht. cbn [default] in Ht.
  assert (H1 : chat_pool st1 !! msg_from m = Some (chats_made st)).
  { subst st1. rewrite Hpool. apply lookup_insert_eq. }
  split; [exact H1|]. split; [|split; [|split; [|split; [|split]]]].
  - rewrite (added_by_intro_app _ _ _ _ Ht).
    rewrite llm_calls_app. read_trace.
    rewrite (proj1 (llm_calls_answer_tails E _ _ m _)). reflexivity.
  - intros evs. by apply main_run_pool_mono.
  - intros evs E' m' rows' rec' text' st2 Hg' Hfrom Hb' Ha' Hr' Hf'.
    assert (H2 : chat_pool st2 !! msg_from m' = Some (chats_made st)).
    { rewrite Hfrom. subst st2. by apply main_run_pool_mono. }
    destruct (main_listener_lesson E' st2 m' rows' text' rec' Hg' Hb' Ha' Hr' Hf')
      as (p' & _ & Ht' & Hpool' & _).
    cbn zeta in Ht'. rewrite H2 in Hpool', Ht'. cbn [default] in Ht'.
    split; [|exact Hpool'].
    rewrite (added_by_intro_app _ _ _ _ Ht').
    rewrite llm_calls_app. read_trace.
    rewrite (proj1 (llm_calls_answer_tails E' _ _ m' _)). reflexivity.
  - intros E' m' st' rows' text' Hg' Hb' Ha' Hr' Hf'.
    pose proof (main_listener_no_lesson E' st' m' rows' text' Hg' Hb' Ha' Hr' Hf') as Hrun.
    rewrite (added_by_intro _ _ _ (f_equal (fun x => trace (snd x)) Hrun)).
    rewrite Hrun. by repeat split.
  - apply adk_handler_creates_nothing.
  - intros data E' st' rows' rec' srows roster Ha' Hr' Hf' Hs' Hro'.
    by destruct (adk_push_run_found data E' st' rows' srows rec' roster Ha' Hr' Hf' Hs' Hro')
      as (_ & Hc & _).
Qed.

Lemma C7_witness :
  chat_pool (snd (Main.incoming_listener monday_env (Some hello_msg) st0)) !! asha_jid
  = Some 0%nat
  /\ llm_calls (added_by (Main.incoming_listener monday_env (Some hello_msg)) st0)
     = [ESendMessage 0 (lit "What is a leaf?")].
Proof.
  pose proof (C7_chat_pool_lifecycle monday_env st0 hello_msg course_plan photosynthesis
                (lit "What is a leaf?")) as H.
  cbn zeta in H.
  destruct H as (H1 & H2 & _); try (vm_compute; reflexivity).
  split; [exact H1|exact H2].
Defined.

(** * Further properties of the code *)

(** ** The sheets reader *)

Lemma find_today_none_inv (today : pystr) (rows : list row) :
  find_today today rows = None ->
  Forall (fun r => py_str (row_get r (lit "Schedule Date")) <> today) rows.
Proof.
  induction rows as [|r rest IH]; simpl; [constructor|].
  case_bool_decide as Hd; [discriminate|]. intros H. constructor; auto.
Qed.

(** X1. [today_topic]'s loop returns [None] exactly when no row carries
    today's date string, and otherwise the record of the first row that does:
    later rows with the same date are ignored, and a column absent from that
    row gives a [None] field instead of an error. *)
Theorem X1_lookup_first_match (today : pystr) (rows : list row) :
  (find_today today rows = None
   <-> Forall (fun r => py_str (row_get r (lit "Schedule Date")) <> today) rows)
  /\ (forall rec,
         find_today today rows = Some rec ->
         exists r before after,
           rows = before ++ r :: after
           /\ Forall (fun r => py_str (row_get r (lit "Schedule Date")) <> today) before
           /\ py_str (row_get r (lit "Schedule Date")) = today
           /\ topic rec = default VNone (r !! lit "Topic")
           /\ clas rec = default VNone (r !! lit "Class")
           /\ teacher rec = default VNone (r !! lit "Teacher")
           /\ subject rec = default VNone (r !! lit "Subject")).
Proof.
  split; [split; [apply find_today_none_inv|apply find_today_none]|].
  intros rec H. destruct (find_today_some _ _ _ H) as (r & b & a & -> & Hb & Hr & ->).
  exists r, b, a. repeat split; auto.
Qed.

Lemma roster_of_ok_iff (class_name : pyval) (rows : list row) :
  Forall (roster_row_ok class_name) rows
  <-> exists roster, roster_of class_name rows = Ret roster.
Proof.
  induction rows as [|r rest IH]; simpl.
  - split; [by exists []|constructor].
  - unfold row_item at 1.
    destruct (r !! lit "Class") as [c|] eqn:Hc; simpl.
    2:{ split; [|intros [? ?]; discriminate].
        intros H. inversion H as [|? ? [[? ?] _] _]; subst. congruence. }
    unfold py_eq. case_bool_decide as Hcn.
    + subst c. unfold row_item.
      destruct (r !! lit "Student Name") as [n|] eqn:Hn; simpl.
      2:{ split; [|intros [? ?]; discriminate].
          intros H. inversion H as [|? ? [_ Hin] _]; subst.
          destruct (Hin Hc) as [[? ?] _]. congruence. }
      destruct (r !! lit "Whatsapp Number") as [w|] eqn:Hw; simpl.
      2:{ split; [|intros [? ?]; discriminate].
          intros H. inversion H as [|? ? [_ Hin] _]; subst.
          destruct (Hin Hc) as [_ [? ?]]. congruence. }
      split.
      * intros H. inversion H as [|? ? _ Hrest]; subst.
        destruct (proj1 IH Hrest) as [l ->]. simpl. eauto.
      * intros [roster H].
        destruct (roster_of class_name rest) as [l|] eqn:Hl; simpl in H; [|discriminate].
        constructor; [|apply IH; eauto].
        split; [by rewrite Hc|]. intros _. by rewrite Hn, Hw.
    + split.
      * intros H. inversion H; subst. by apply IH.
      * intros H. constructor; [|by apply IH].
        split; [by rewrite Hc|]. unfold in_class. rewrite Hc. congruence.
Qed.

Lemma roster_of_exc_class (class_name : pyval) (rows : list row) (e : exn) :
  roster_of class_name rows = Exc e -> exn_cls e = KeyError.
Proof.
  induction rows as [|r rest IH]; simpl; [discriminate|].
  unfold row_item.
  destruct (r !! lit "Class") as [c|]; simpl; [|by intros [= <-]].
  destruct (py_eq c class_name); [|exact IH].
  destruct (r !! lit "Student Name"); simpl; [|by intros [= <-]].
  destruct (r !! lit "Whatsapp Number"); simpl; [|by intros [= <-]].
  destruct (roster_of class_name rest); simpl; [discriminate|].
  intros [= <-]. by apply IH.
Qed.

(** X2. The roster built by [students_for_class] is the rows of the class in
    sheet order, one entry per row: the entry has the row's name and the
    row's number as a string without the leading plus signs. *)
Theorem X2_roster_is_class_rows (class_name : pyval) (rows : list row)
        (roster : list student) :
  roster_of class_name rows = Ret roster ->
  Forall2 enrolled (filter (in_class class_name) rows) roster
  /\ length roster = length (filter (in_class class_name) rows).
Proof.
  intros H. apply roster_of_spec in H. split; [exact H|].
  symmetry. by eapply Forall2_length.
Qed.

Lemma X2_witness :
  Forall2 enrolled (filter (in_class (VStr (lit "7A"))) roster_sheet) [asha]
  /\ length [asha] = length (filter (in_class (VStr (lit "7A"))) roster_sheet).
Proof.
  apply (X2_roster_is_class_rows (VStr (lit "7A")) roster_sheet [asha]).
  vm_compute. reflexivity.
Defined.

(** X3. [students_for_class]'s comprehension raises exactly when some row
    lacks a column it subscripts, "Class" for any row and the name or the
    number for a row of the class; what it raises is a [KeyError].  A row of
    another class may lack the name and the number. *)
Theorem X3_roster_raises_on_missing_column (class_name : pyval) (rows : list row) :
  (Forall (roster_row_ok class_name) rows
   <-> exists roster, roster_of class_name rows = Ret roster)
  /\ (forall e, roster_of class_name rows = Exc e -> exn_cls e = KeyError).
Proof.
  split; [apply roster_of_ok_iff|apply roster_of_exc_class].
Qed.

(** ** The push job *)

(** X4. When the push job raises, it has sent nothing: every failure that
    can leave it (authorisation, reading either sheet, a roster row without a
    column) happens before the loop, and the loop itself never raises.  In
    the ADK variant no session has been created either. *)
Theorem X4_push_raises_before_sending (E : env) (data : lesson) (st : state) (e : exn) :
  (fst (Main.push_daily_summary E st) = Exc e ->
   sends (added_by (Main.push_daily_summary E) st) = [])
  /\ (fst (Adk.push_daily_summary data E st) = Exc e ->
      sends (added_by (Adk.push_daily_summary data E) st) = []
      /\ creations (added_by (Adk.push_daily_summary data E) st) = []).
Proof.
  split.
  - destruct (main_push_cases E st) as (added & Ht & _ & _ & _ & _ & Hcases).
    rewrite (added_by_intro _ _ _ Ht). intros He.
    destruct Hcases as [Hnone|(? & ? & ? & ? & ? & _ & _ & _ & _ & Hret & _)]; [exact Hnone|].
    congruence.
  - destruct (adk_push_cases data E st) as (added & Ht & _ & _ & Hcases).
    rewrite (added_by_intro _ _ _ Ht). intros He.
    destruct Hcases as [Hnone|(? & ? & ? & ? & ? & _ & _ & _ & _ & Hret & _)]; [exact Hnone|].
    congruence.
Qed.

Lemma X4_witness :
  sends (added_by (Main.push_daily_summary
                     (calm_env monday course_plan roster_sheet_broken [])) st0) = []
  /\ fst (Main.push_daily_summary (calm_env monday course_plan roster_sheet_broken []) st0)
     = Exc (Exn KeyError (lit "'Whatsapp Number'")).
Proof.
  split; [|vm_compute; reflexivity].
  apply (proj1 (X4_push_raises_before_sending
                  (calm_env monday course_plan roster_sheet_broken []) photosynthesis st0
                  (Exn KeyError (lit "'Whatsapp Number'")))).
  vm_compute. reflexivity.
Defined.

(** X5. Once the lesson and the roster are read, the push job completes
    whatever the client does.  [main.py] attempts exactly one send per roster
    entry, in roster order, also after sends that failed.  The ADK variant
    goes through the roster in order and, for each entry, creates the
    session and then, only when the creation succeeded, prints the session
    and attempts the send; after a failed creation it prints the error and
    moves on to the next entry.  So one session creation is attempted per
    entry, and the sends are those of the entries whose session was created. *)
Theorem X5_push_loop_isolates_failures (E : env) (data : lesson) (st : state)
        (rows srows : list row) (rec : lesson) :
  authorize E (trace st) = None ->
  get_all_records E (trace st ++ [EAuthorize]) (COURSE_SHEET E) = Ret rows ->
  find_today (today E) rows = Some rec ->
  get_all_records E (trace st ++ [EAuthorize; ERead (COURSE_SHEET E)]) (STUDENT_SHEET E)
  = Ret srows ->
  (forall roster,
      roster_of (clas rec) srows = Ret roster ->
      fst (Main.push_daily_summary E st) = Ret tt
      /\ sends (added_by (Main.push_daily_summary E) st)
         = map (main_push_message rec) roster)
  /\ (forall roster,
         roster_of (clas data) srows = Ret roster ->
         fst (Adk.push_daily_summary data E st) = Ret tt
         /\ (exists rest,
                added_by (Adk.push_daily_summary data E) st
                = EAuthorize :: ERead (COURSE_SHEET E) :: ERead (STUDENT_SHEET E) :: rest
                /\ adk_loop_trace E data
                     (trace st ++ [EAuthorize; ERead (COURSE_SHEET E);
                                   ERead (STUDENT_SHEET E)])
                     roster rest)
         /\ creations (added_by (Adk.push_daily_summary data E) st)
            = map Adk.push_jid roster
         /\ sublist (sends (added_by (Adk.push_daily_summary data E) st))
                    (map (adk_push_message data) roster)
         /\ ((forall t jid, create_session E t jid = None) ->
             sends (added_by (Adk.push_daily_summary data E) st)
             = map (adk_push_message data) roster)).
Proof.
  intros Ha Hr Hf Hs. split; intros roster Hro.
  - by eapply main_push_one_send_per_student.
  - destruct (adk_push_run_found data E st rows srows rec roster Ha Hr Hf Hs Hro)
      as (Hret & Hc & Hsub & Hall).
    split; [exact Hret|]. split; [|by repeat split].
    by eapply adk_push_run_trace.
Qed.

Lemma X5_witness :
  fst (Main.push_daily_summary (client_down monday_env) st0) = Ret tt
  /\ sends (added_by (Main.push_daily_summary (client_down monday_env)) st0)
     = map (main_push_message photosynthesis) [asha].
Proof.
  apply (proj1 (X5_push_loop_isolates_failures (client_down monday_env) photosynthesis st0
                  course_plan roster_sheet photosynthesis
                  ltac:(vm_compute; reflexivity) ltac:(vm_compute; reflexivity)
                  ltac:(vm_compute; reflexivity) ltac:(vm_compute; reflexivity))).
  vm_compute. reflexivity.
Defined.

(** X6. The push job never calls the model and never replies to a message,
    and in [main.py] it leaves the chat pool and the count of chat objects as
    they were. *)
Theorem X6_push_stays_in_its_lane (E : env) (data : lesson) (st : state) :
  llm_calls (added_by (Main.push_daily_summary E) st) = []
  /\ replies (added_by (Main.push_daily_summary E) st) = []
  /\ creations (added_by (Main.push_daily_summary E) st) = []
  /\ chat_pool (snd (Main.push_daily_summary E st)) = chat_pool st
  /\ chats_made (snd (Main.push_daily_summary E st)) = chats_made st
  /\ llm_calls (added_by (Adk.push_daily_summary data E) st) = []
  /\ replies (added_by (Adk.push_daily_summary data E) st) = [].
Proof.
  destruct (main_push_cases E st) as (added & Ht & Hp & Hm & Hl & Hr & _).
  destruct (adk_push_cases data E st) as (added' & Ht' & Hl' & Hr' & _).
  rewrite (added_by_intro _ _ _ Ht), (added_by_intro _ _ _ Ht').
  repeat split; auto.
  clear -Ht. revert Ht.
  unfold Main.push_daily_summary, make_gspread, today_topic, students_for_class, read_sheet.
  run_monad.
  assert (Hloop : forall rec roster s added0,
             trace (snd (for_each roster
                           (Main.push_one E (topic rec) (clas rec) (teacher rec)) s))
             = trace s ++ added0 -> creations added0 = []).
  { intros rec roster. induction roster as [|stu rest IH]; intros s added0; simpl.
    - intros H. apply (f_equal (drop (length (trace s)))) in H.
      rewrite drop_all, drop_app_length in H. by subst.
    - destruct (main_push_one_run E (topic rec) (clas rec) (teacher rec) stu s)
        as [line H1].
      unfold bind at 1. rewrite H1. intros H.
      destruct (main_push_loop E rec rest
                  (State (trace s ++ [ESendText (Main.push_jid stu)
                                        (Main.push_body stu (topic rec) (clas rec)
                                                        (teacher rec));
                                      EPrint line]) (chat_pool s) (chats_made s)))
        as (more & Hrun & _).
      rewrite Hrun in H. cbn [snd trace] in H. rewrite <- app_assoc in H.
      apply app_inv_head in H. subst added0. cbn [app]. read_trace.
      eapply (IH _ more). rewrite Hrun. reflexivity. }
  destruct (authorize E (trace st)); fields_of_state.
  { intros H. apply app_inv_head in H. by subst. }
  rewrite <- ?app_assoc. cbn [app].
  destruct (get_all_records E _ _) as [rows|]; fields_of_state.
  2:{ intros H. apply app_inv_head in H. by subst. }
  destruct (find_today (today E) rows) as [rec|]; fields_of_state.
  2:{ rewrite <- ?app_assoc. cbn [app]. intros H. apply app_inv_head in H. by subst. }
  rewrite <- ?app_assoc. cbn [app].
  destruct (get_all_records E _ _) as [srows|]; fields_of_state.
  2:{ intros H. apply app_inv_head in H. by subst. }
  destruct (roster_of (clas rec) srows) as [roster|]; fields_of_state.
  2:{ intros H. apply app_inv_head in H. by subst. }
  match goal with
  | |- context [for_each roster ?f ?s] =>
      destruct (main_push_loop E rec roster s) as (rest & Hrun & _);
      pose proof (Hloop rec roster s rest) as Hc
  end.
  rewrite Hrun in *. fields_of_state. cbn [snd trace] in Hc.
  rewrite <- ?app_assoc. cbn [app]. intros H. apply app_inv_head in H. subst added.
  read_trace. by apply Hc.
Qed.

Lemma starts_with_app (needle rest : pystr) : starts_with needle (needle ++ rest) = true.
Proof.
  induction needle as [|c n IH]; [by destruct rest|].
  simpl. by rewrite N.eqb_refl, IH.
Qed.

Lemma contains_here (needle rest : pystr) : contains needle (needle ++ rest) = true.
Proof.
  destruct (needle ++ rest) eqn:H; simpl; rewrite <- H, starts_with_app; reflexivity.
Qed.

Lemma contains_app_r (needle before s : pystr) :
  contains needle s = true -> contains needle (before ++ s) = true.
Proof.
  intros H. induction before as [|c b IH]; [exact H|].
  cbn [app contains]. rewrite IH. apply orb_true_r.
Qed.

Ltac find_part := first [ apply contains_here | apply contains_app_r; find_part ].

(** X7. The body pushed to a student contains the student's name, the class,
    the teacher and the topic it is given, in both variants. *)
Theorem X7_push_body_mentions_fields (stu : student) (topic clas teacher : pyval) :
  (contains (py_str (name stu)) (Main.push_body stu topic clas teacher) = true
   /\ contains (py_str clas) (Main.push_body stu topic clas teacher) = true
   /\ contains (py_str teacher) (Main.push_body stu topic clas teacher) = true
   /\ contains (py_str topic) (Main.push_body stu topic clas teacher) = true)
  /\ (contains (py_str (name stu)) (Adk.push_body stu topic clas teacher) = true
      /\ contains (py_str clas) (Adk.push_body stu topic clas teacher) = true
      /\ contains (py_str teacher) (Adk.push_body stu topic clas teacher) = true
      /\ contains (py_str topic) (Adk.push_body stu topic clas teacher) = true).
Proof.
  unfold Main.push_body, Adk.push_body.
  generalize (py_str (name stu)) (py_str clas) (py_str teacher) (py_str topic).
  intros n c te to.
  repeat split; find_part.
Qed.

(** ** The inbound handlers *)

(** X8. The ADK handler drops a private message exactly when its body is
    absent, [None], or a text made of whitespace only; it then returns
    without any external call.  Any other body makes it authorise and look
    the lesson up. *)
Theorem X8_adk_drops_exactly_blank (E : env) (st : state) (m : message) :
  isGroupMsg m = false ->
  (Adk.is_empty (Adk.body_text (msg_body m)) = true
   <-> match msg_body m with
       | BodyText s => forallb isspace s = true
       | _ => True
       end)
  /\ (Adk.is_empty (Adk.body_text (msg_body m)) = true ->
      Adk.handle_message E (Some m) st = (Ret tt, st))
  /\ (Adk.is_empty (Adk.body_text (msg_body m)) = false ->
      exists rest, added_by (Adk.handle_message E (Some m)) st = EAuthorize :: rest).
Proof.
  intros Hg. split; [|split].
  - rewrite is_empty_nil. unfold Adk.body_text.
    destruct (msg_body m) as [| |s]; [by vm_compute|by vm_compute|apply strip_nil_iff].
  - intros Hb. unfold Adk.handle_message. by rewrite Hg, Hb.
  - intros Hb.
    assert (Hpre : exists rest,
               trace (snd (Adk.handle_message E (Some m) st))
               = trace st ++ EAuthorize :: rest).
    2:{ destruct Hpre as [rest Hrest]. exists rest. by apply added_by_intro. }
    unfold Adk.handle_message, make_gspread, today_topic, read_sheet, client_reply.
    rewrite Hg, Hb. run_monad.
    destruct (authorize E (trace st)); fields_of_state.
    { split_reply E; fields_of_state; rewrite <- ?app_assoc; cbn [app]; eauto. }
    rewrite <- ?app_assoc. cbn [app].
    destruct (get_all_records E _ _) as [rows|e]; fields_of_state.
    2:{ split_reply E; fields_of_state; rewrite <- ?app_assoc; cbn [app]; eauto. }
    destruct (find_today (today E) rows) as [rec|]; fields_of_state.
    2:{ split_reply E; fields_of_state; [split_reply E; fields_of_state|];
        rewrite <- ?app_assoc; cbn [app]; eauto. }
    destruct (get_session E _ _) as [e|]; cbn [returning]; fields_of_state.
    { split_reply E; fields_of_state; rewrite <- ?app_assoc; cbn [app]; eauto. }
    destruct (Adk.first_final _ _) as [answer|e1]; fields_of_state;
      (split_reply E; fields_of_state; [split_reply E; fields_of_state|];
       rewrite <- ?app_assoc; cbn [app]; eauto).
Qed.

Lemma X8_witness :
  Adk.handle_message monday_env (Some blank_msg) st0 = (Ret tt, st0).
Proof.
  apply (proj1 (proj2 (X8_adk_drops_exactly_blank monday_env st0 blank_msg eq_refl))).
  vm_compute. reflexivity.
Defined.

Lemma first_final_quiet (pre rest : list run_step) (d : pystr) :
  Forall quiet pre ->
  Adk.first_final (pre ++ rest) d = Adk.first_final rest d.
Proof.
  induction 1 as [|s pre Hs _ IH]; [reflexivity|].
  destruct s as [ev|e]; [|destruct Hs].
  simpl in *. unfold answers in Hs.
  destruct (is_final_response ev); [|exact IH].
  destruct (content ev) as [[|part ps]|]; try exact IH. discriminate.
Qed.

(** X9. The loop over the events of the agent: events that are not a final
    response with parts are skipped; the first one that is gives the reply, and
    nothing after it is looked at, not even a failure; a failure before it is
    raised; and when the events end first the default text is returned. *)
Theorem X9_first_final_answer (pre post : list run_step) (d : pystr) :
  Forall quiet pre ->
  Adk.first_final pre d = Ret d
  /\ (forall ev part,
         answers ev = Some part ->
         Adk.first_final (pre ++ Yield ev :: post) d = Ret part)
  /\ (forall e, Adk.first_final (pre ++ Raise e :: post) d = Exc e).
Proof.
  intros Hq. split; [|split].
  - rewrite <- (app_nil_r pre). by rewrite first_final_quiet.
  - intros ev part Ha. rewrite first_final_quiet by exact Hq.
    simpl. unfold answers in Ha.
    destruct (is_final_response ev); [|discriminate].
    destruct (content ev) as [[|p ps]|]; try discriminate. by inversion Ha.
  - intros e. by rewrite first_final_quiet.
Qed.

Lemma X9_witness :
  Adk.first_final
    ([Yield (RunEvent false (Some [lit "thinking"])); Yield (RunEvent true None)]
       ++ Yield (RunEvent true (Some [lit "Leaves make sugar."; lit "second part"]))
       :: [Raise (Exn ServiceError (lit "late failure"))])
    Adk.NO_RESPONSE_REPLY
  = Ret (lit "Leaves make sugar.").
Proof.
  apply (proj1 (proj2 (X9_first_final_answer
                         [Yield (RunEvent false (Some [lit "thinking"]));
                          Yield (RunEvent true None)]
                         [Raise (Exn ServiceError (lit "late failure"))]
                         Adk.NO_RESPONSE_REPLY
                         ltac:(repeat constructor)))).
  reflexivity.
Defined.

Lemma handler_effects_read (m : message) (l : list effect) :
  Forall (handler_effect m) l ->
  sends l = [] /\ creations l = []
  /\ Forall (fun r => fst (fst r) = msg_from m /\ snd r = msg_id m) (replies l).
Proof.
  induction 1 as [|x l Hx _ (IHs & IHc & IHr)]; [repeat constructor|].
  rewrite sends_cons, creations_cons, replies_cons.
  destruct x; cbn [handler_effect sent created replied] in *; try done.
  repeat split; auto.
Qed.

Ltac footprint_leaf :=
  fields_of_state; rewrite <- ?app_assoc; cbn [app];
  first [ (eexists; split; [reflexivity|])
        | (exists []; split; [by rewrite app_nil_r|]) ];
  (split; [ repeat (constructor; cbn [handler_effect])
          | read_trace; change (llm_calls []) with (@nil effect);
            change (replies []) with (@nil (pystr * pystr * pystr));
            cbn [length]; split; lia ]).

(** Every path through the handler of [main.py]. *)
Lemma main_listener_footprint (E : env) (m : message) (st : state) :
  exists added,
    trace (snd (Main.incoming_listener E (Some m) st)) = trace st ++ added
    /\ Forall (handler_effect m) added
    /\ (length (llm_calls added) <= 1)%nat
    /\ (length (replies added) <= 1)%nat.
Proof.
  unfold Main.incoming_listener, make_gspread, today_topic, read_sheet, client_reply,
    Main.new_chat, Main.start_chat, Main.pool_setdefault, Main.chat_send_message.
  destruct (isGroupMsg m); [run_monad; footprint_leaf|].
  destruct (Main.body_text (msg_body m)) as [text|e]; run_monad; [|footprint_leaf].
  destruct (authorize E (trace st)); fields_of_state; [footprint_leaf|].
  destruct (get_all_records E _ _) as [rows|e]; fields_of_state; [|footprint_leaf].
  destruct (find_today (today E) rows) as [rec|]; fields_of_state.
  2:{ split_reply E; footprint_leaf. }
  destruct (main_prompt_total (topic rec) (subject rec) (teacher rec) (clas rec))
    as (ps & _ & ->).
  fields_of_state.
  destruct (chat_pool st !! msg_from m) as [c|]; fields_of_state;
    (destruct (send_message E _ _ _); fields_of_state; split_reply E; footprint_leaf).
Qed.

(** Every path through the handler of the ADK variant. *)
Lemma adk_handler_footprint (E : env) (m : message) (st : state) :
  exists added,
    trace (snd (Adk.handle_message E (Some m) st)) = trace st ++ added
    /\ Forall (handler_effect m) added
    /\ (length (llm_calls added) <= 1)%nat
    /\ (length (replies added) <= 2)%nat.
Proof.
  unfold Adk.handle_message, make_gspread, today_topic, read_sheet, client_reply.
  destruct (isGroupMsg m); [run_monad; footprint_leaf|].
  destruct (Adk.is_empty (Adk.body_text (msg_body m))); [run_monad; footprint_leaf|].
  run_monad.
  destruct (authorize E (trace st)); fields_of_state.
  { split_reply E; footprint_leaf. }
  rewrite <- ?app_assoc. cbn [app].
  destruct (get_all_records E _ _) as [rows|e]; fields_of_state.
  2:{ split_reply E; footprint_leaf. }
  destruct (find_today (today E) rows) as [rec|]; fields_of_state.
  2:{ split_reply E; fields_of_state; [split_reply E|]; footprint_leaf. }
  destruct (get_session E _ _) as [e|]; cbn [returning]; fields_of_state.
  { split_reply E; footprint_leaf. }
  destruct (Adk.first_final _ _) as [answer|e1]; fields_of_state;
    (split_reply E; fields_of_state; [split_reply E|]; footprint_leaf).
Qed.

(** X10. What a handler never does.  Serving one inbound message, a handler
    sends no push message and creates no session, calls the model at most
    once, and replies at most once ([main.py]) or twice (ADK: the answer and
    the fallback after a failed reply); every reply goes to the sender and
    quotes the message it answers.  A missing message is ignored without any
    external call. *)
Theorem X10_handler_footprint (E : env) (st : state) (m : message) :
  (sends (added_by (Main.incoming_listener E (Some m)) st) = []
   /\ creations (added_by (Main.incoming_listener E (Some m)) st) = []
   /\ (length (llm_calls (added_by (Main.incoming_listener E (Some m)) st)) <= 1)%nat
   /\ (length (replies (added_by (Main.incoming_listener E (Some m)) st)) <= 1)%nat
   /\ Forall (fun r => fst (fst r) = msg_from m /\ snd r = msg_id m)
             (replies (added_by (Main.incoming_listener E (Some m)) st)))
  /\ (sends (added_by (Adk.handle_message E (Some m)) st) = []
      /\ creations (added_by (Adk.handle_message E (Some m)) st) = []
      /\ (length (llm_calls (added_by (Adk.handle_message E (Some m)) st)) <= 1)%nat
      /\ (length (replies (added_by (Adk.handle_message E (Some m)) st)) <= 2)%nat
      /\ Forall (fun r => fst (fst r) = msg_from m /\ snd r = msg_id m)
                (replies (added_by (Adk.handle_message E (Some m)) st)))
  /\ Main.incoming_listener E None st = (Ret tt, st)
  /\ Adk.handle_message E None st = (Ret tt, st).
Proof.
  destruct (main_listener_footprint E m st) as (a1 & Ht1 & Hf1 & Hl1 & Hr1).
  destruct (adk_handler_footprint E m st) as (a2 & Ht2 & Hf2 & Hl2 & Hr2).
  rewrite (added_by_intro _ _ _ Ht1), (added_by_intro _ _ _ Ht2).
  destruct (handler_effects_read m a1 Hf1) as (? & ? & ?).
  destruct (handler_effects_read m a2 Hf2) as (? & ? & ?).
  repeat split; auto.
Qed.



(** ** The chat pool *)

(** Every path through the handler of [main.py], as seen from the store. *)
Lemma main_listener_store (E : env) (msg : option message) (st : state) :
  (chat_pool (snd (Main.incoming_listener E msg st)) = chat_pool st
   /\ (chats_made st <= chats_made (snd (Main.incoming_listener E msg st)))%nat)
  \/ exists m, msg = Some m
               /\ chat_pool st !! msg_from m = None
               /\ chat_pool (snd (Main.incoming_listener E msg st))
                  = <[msg_from m := chats_made st]> (chat_pool st)
               /\ chats_made (snd (Main.incoming_listener E msg st)) = S (chats_made st).
Proof.
  destruct msg as [m|]; [|left; split; [reflexivity|simpl; lia]].
  unfold Main.incoming_listener, make_gspread, today_topic, read_sheet, client_reply,
    Main.new_chat, Main.start_chat, Main.pool_setdefault, Main.chat_send_message.
  destruct (isGroupMsg m); [left; split; [reflexivity|simpl; lia]|].
  destruct (Main.body_text (msg_body m)) as [text|e]; run_monad;
    [|left; split; [reflexivity|lia]].
  destruct (authorize E (trace st)); fields_of_state; [left; split; [reflexivity|lia]|].
  destruct (get_all_records E _ _) as [rows|e]; fields_of_state;
    [|left; split; [reflexivity|lia]].
  destruct (find_today (today E) rows) as [rec|]; fields_of_state.
  2:{ split_reply E; fields_of_state; left; split; (reflexivity || lia). }
  destruct (main_prompt_total (topic rec) (subject rec) (teacher rec) (clas rec))
    as (ps & _ & ->).
  fields_of_state.
  destruct (chat_pool st !! msg_from m) as [c|] eqn:Hc; fields_of_state.
  - left.
    destruct (send_message E _ _ _); fields_of_state;
      split_reply E; fields_of_state; split; (reflexivity || lia).
  - right. exists m. split; [reflexivity|]. split; [exact Hc|].
    destruct (send_message E _ _ _); fields_of_state;
      split_reply E; fields_of_state; split; reflexivity.
Qed.

Lemma main_handle_store (ev : Main.event) (st : state) :
  pool_fresh st -> pool_injective st ->
  pool_fresh (snd (Main.handle ev st))
  /\ pool_injective (snd (Main.handle ev st))
  /\ (chats_made st <= chats_made (snd (Main.handle ev st)))%nat.
Proof.
  intros Hf Hi. destruct ev as [E|E msg]; cbn [Main.handle].
  - destruct (main_push_cases E st) as (added & _ & Hp & Hm & _).
    unfold pool_fresh, pool_injective. rewrite Hp, Hm. repeat split; auto.
  - destruct (main_listener_store E msg st)
      as [[Hp Hm]|(m & _ & Hnone & Hp & Hm)];
      unfold pool_fresh, pool_injective; rewrite Hp.
    + repeat split; auto. intros jid c Hc. specialize (Hf jid c Hc). lia.
    + rewrite Hm. repeat split; [| |lia].
      * intros jid c. rewrite lookup_insert. case_decide.
        -- intros [= <-]. lia.
        -- intros Hc. specialize (Hf jid c Hc). lia.
      * intros j1 j2 c. rewrite !lookup_insert.
        repeat case_decide; subst; auto.
        -- intros [= <-] Hc. specialize (Hf j2 _ Hc). lia.
        -- intros Hc [= <-]. specialize (Hf j1 _ Hc). lia.
        -- apply Hi.
Qed.

(** X12. Whatever the process handles, the chat pool of [main.py] stays
    sound: every stored chat object has been created, no two recipients share
    one, and the count of created objects never decreases. *)
Theorem X12_chat_pool_invariant (evs : list Main.event) (st : state) :
  pool_fresh st -> pool_injective st ->
  pool_fresh (Main.run evs st)
  /\ pool_injective (Main.run evs st)
  /\ (chats_made st <= chats_made (Main.run evs st))%nat.
Proof.
  revert st. induction evs as [|ev rest IH]; intros st Hf Hi; simpl.
  - repeat split; auto.
  - destruct (main_handle_store ev st Hf Hi) as (Hf' & Hi' & Hm).
    destruct (IH _ Hf' Hi') as (? & ? & ?). repeat split; auto. lia.
Qed.

Lemma X12_witness :
  pool_fresh (Main.run [Main.Inbound monday_env (Some hello_msg);
                        Main.Timer tuesday_env;
                        Main.Inbound tuesday_env (Some emoji_msg)] st0)
  /\ pool_injective (Main.run [Main.Inbound monday_env (Some hello_msg);
                               Main.Timer tuesday_env;
                               Main.Inbound tuesday_env (Some emoji_msg)] st0)
  /\ (chats_made st0 <= chats_made (Main.run [Main.Inbound monday_env (Some hello_msg);
                                              Main.Timer tuesday_env;
                                              Main.Inbound tuesday_env (Some emoji_msg)]
                                             st0))%nat.
Proof.
  apply X12_chat_pool_invariant.
  - intros jid c H. vm_compute in H. discriminate.
  - intros j1 j2 c H. vm_compute in H. discriminate.
Defined.

(** X13. A later message of a recipient who already has a chat: the handler
    still composes today's prompt and builds a new chat object with it, but
    leaves the pool as it is and the new object unused: the conversation it
    prints is that of the stored, older object, and the message is sent to
    that object.  The whole run is: authorise, read the course sheet, start
    the new chat, print the three lines of the dump, send the message to the
    stored chat, then print and reply as the answer dictates. *)
Theorem X13_stored_chat_outlives_new_prompt (E : env) (st : state) (m : message)
        (rows : list row) (rec : lesson) (text : pystr) (c : nat) :
  isGroupMsg m = false ->
  Main.body_text (msg_body m) = Ret text ->
  authorize E (trace st) = None ->
  get_all_records E (trace st ++ [EAuthorize]) (COURSE_SHEET E) = Ret rows ->
  find_today (today E) rows = Some rec ->
  chat_pool st !! msg_from m = Some c ->
  pool_fresh st ->
  exists prompt,
    py_format Main.SYSTEM_PROMPT
              (prompt_kwargs (topic rec) (subject rec) (teacher rec) (clas rec)) = Ret prompt
    /\ (let started := [EAuthorize; ERead (COURSE_SHEET E);
                        EStartChat (chats_made st) prompt] in
        let dump := main_dump E (trace st ++ started) (msg_from m) c in
        added_by (Main.incoming_listener E (Some m)) st
        = started ++ dump
            ++ ESendMessage c text
            :: main_answer_tail E (trace st ++ started ++ dump) c m text)
    /\ c <> chats_made st
    /\ chat_pool (snd (Main.incoming_listener E (Some m) st)) = chat_pool st
    /\ chats_made (snd (Main.incoming_listener E (Some m) st)) = S (chats_made st).
Proof.
  intros Hg Hb Ha Hr Hf Hc Hfresh.
  destruct (main_listener_lesson E st m rows text rec Hg Hb Ha Hr Hf)
    as (p & Hp & Ht & Hpool & Hmade).
  cbn zeta in Ht. rewrite Hc in Ht, Hpool. cbn [default from_option] in Ht.
  change (id c) with c in Ht.
  exists p. split; [exact Hp|]. split; [|split; [|split]].
  - cbn zeta. rewrite (added_by_intro_app _ _ _ _ Ht).
    unfold main_prelude. rewrite <- !app_assoc. reflexivity.
  - specialize (Hfresh _ _ Hc). lia.
  - exact Hpool.
  - exact Hmade.
Qed.

Lemma X13_witness :
  exists prompt,
    py_format Main.SYSTEM_PROMPT
              (prompt_kwargs (topic fractions) (subject fractions) (teacher fractions)
                             (clas fractions)) = Ret prompt
    /\ (let started := [EAuthorize; ERead (COURSE_SHEET tuesday_env); EStartChat 1 prompt] in
        let dump := main_dump tuesday_env (trace st_asha ++ started) (msg_from emoji_msg) 0 in
        added_by (Main.incoming_listener tuesday_env (Some emoji_msg)) st_asha
        = started ++ dump
            ++ ESendMessage 0 (lit "😊")
            :: main_answer_tail tuesday_env (trace st_asha ++ started ++ dump) 0 emoji_msg
                                (lit "😊"))
    /\ 0%nat <> 1%nat
    /\ chat_pool (snd (Main.incoming_listener tuesday_env (Some emoji_msg) st_asha))
       = chat_pool st_asha
    /\ chats_made (snd (Main.incoming_listener tuesday_env (Some emoji_msg) st_asha)) = 2%nat.
Proof.
  apply (X13_stored_chat_outlives_new_prompt tuesday_env st_asha emoji_msg course_plan
           fractions (lit "😊") 0%nat);
    try (vm_compute; reflexivity).
  intros jid c H. unfold st_asha in *. cbn [chat_pool chats_made] in *.
  apply lookup_singleton_Some in H as [_ <-]. lia.
Defined.

(** ** The prompt composer, continued *)

Lemma format_from_results (kw : kwargs) (n : nat) :
  forall (s : pystr) (fld : option pystr) (ps : list piece),
    (length s <= n)%nat ->
    scan fld s = Some ps ->
    match format_from kw fld s with
    | Ret _ => forall f, In f (fields ps) -> exists v, format_field kw f = Ret v
    | Exc e => exists f, In f (fields ps) /\ format_field kw f = Exc e
    end.
Proof.
  induction n as [|n IH]; intros s fld ps Hlen Hscan.
  - destruct s; [|simpl in Hlen; lia].
    destruct fld; simpl in *; [discriminate|]. inversion Hscan. by intros f [].
  - destruct s as [|c r].
    { destruct fld; simpl in *; [discriminate|]. inversion Hscan. by intros f []. }
    simpl in Hlen.
    destruct fld as [acc|]; simpl in *.
    + destruct (c =? rbrace).
      * destruct (scan None r) as [ps'|] eqn:Hr; simpl in Hscan; [|discriminate].
        inversion Hscan; subst ps; clear Hscan.
        specialize (IH r None ps' ltac:(lia) Hr).
        destruct (format_field kw acc) as [v|e] eqn:Hacc; simpl.
        -- destruct (format_from kw None r) as [t|e]; simpl.
           ++ intros f [<-|Hin]; eauto.
           ++ destruct IH as (f & Hin & Hf). exists f. split; [by right|exact Hf].
        -- exists acc. split; [by left|exact Hacc].
      * destruct (c =? lbrace); [discriminate|].
        apply IH; auto with lia.
    + destruct (c =? lbrace).
      * destruct r as [|c' r']; [discriminate|]. simpl in Hlen.
        destruct (c' =? lbrace).
        -- destruct (scan None r') as [ps'|] eqn:Hr; simpl in Hscan; [|discriminate].
           inversion Hscan; subst ps; clear Hscan.
           specialize (IH r' None ps' ltac:(lia) Hr).
           destruct (format_from kw None r'); simpl; exact IH.
        -- apply IH; simpl; auto with lia.
      * destruct (c =? rbrace).
        -- destruct r as [|c' r']; [discriminate|]. simpl in Hlen.
           destruct (c' =? rbrace); [|discriminate].
           destruct (scan None r') as [ps'|] eqn:Hr; simpl in Hscan; [|discriminate].
           inversion Hscan; subst ps; clear Hscan.
           specialize (IH r' None ps' ltac:(lia) Hr).
           destruct (format_from kw None r'); simpl; exact IH.
        -- destruct (scan None r) as [ps'|] eqn:Hr; simpl in Hscan; [|discriminate].
           inversion Hscan; subst ps; clear Hscan.
           specialize (IH r None ps' ltac:(lia) Hr).
           destruct (format_from kw None r); simpl; exact IH.
Qed.

Lemma prompt_field_lookup (kw : kwargs) (f : pystr) :
  In f prompt_fields ->
  format_field kw f
  = match kw_lookup kw f with
    | Some v => Ret (py_str v)
    | None => Exc (Exn KeyError (lit "'" ++ f ++ lit "'"))
    end.
Proof.
  unfold prompt_fields. simpl. intros [<-|[<-|[<-|[<-|[]]]]]; reflexivity.
Qed.

Lemma template_format_cases (kw : kwargs) (tmpl : pystr) (ps : list piece) :
  scan None tmpl = Some ps ->
  (forall f, In f (fields ps) <-> In f prompt_fields) ->
  match py_format tmpl kw with
  | Ret _ => forall f, In f prompt_fields -> is_Some (kw_lookup kw f)
  | Exc e => exists f, In f prompt_fields /\ kw_lookup kw f = None
                       /\ e = Exn KeyError (lit "'" ++ f ++ lit "'")
  end.
Proof.
  intros Hs Hf. unfold py_format.
  pose proof (format_from_results kw (length tmpl) tmpl None ps (le_n _) Hs) as H.
  destruct (format_from kw None tmpl) as [t|e].
  - intros f Hin. destruct (H f (proj2 (Hf f) Hin)) as [v Hv].
    rewrite (prompt_field_lookup kw f Hin) in Hv.
    destruct (kw_lookup kw f); [eauto|discriminate].
  - destruct H as (f & Hin & He). apply Hf in Hin.
    rewrite (prompt_field_lookup kw f Hin) in He.
    exists f. split; [exact Hin|].
    destruct (kw_lookup kw f); [discriminate|]. split; [reflexivity|congruence].
Qed.

(** X14. Each template needs all four fields.  Formatting it with keyword
    arguments that bind TOPIC, SUBJECT, TEACHER and CLASS returns; with any
    one of them unbound it raises a [KeyError] that names an unbound field.
    Nothing else can make it raise: the templates have no stray brace. *)
Theorem X14_format_raises_iff_field_unbound (kw : kwargs) :
  match py_format Main.SYSTEM_PROMPT kw with
  | Ret _ => forall f, In f prompt_fields -> is_Some (kw_lookup kw f)
  | Exc e => exists f, In f prompt_fields /\ kw_lookup kw f = None
                       /\ e = Exn KeyError (lit "'" ++ f ++ lit "'")
  end
  /\ match py_format Adk.SYSTEM_PROMPT_TMPL kw with
     | Ret _ => forall f, In f prompt_fields -> is_Some (kw_lookup kw f)
     | Exc e => exists f, In f prompt_fields /\ kw_lookup kw f = None
                          /\ e = Exn KeyError (lit "'" ++ f ++ lit "'")
     end.
Proof.
  destruct templates_scan as [(ps1 & Hs1 & Hf1) (ps2 & Hs2 & Hf2)].
  split; eapply template_format_cases; eauto.
Qed.

Lemma render_contains (val : pystr -> pystr) (ps : list piece) (f : pystr) :
  In f (fields ps) -> contains (val f) (render val ps) = true.
Proof.
  induction ps as [|p r IH]; [intros []|].
  destruct p as [c|g]; cbn [fields omap hole render].
  - intros Hin. apply (contains_app_r (val f) [c]). by apply IH.
  - change (fields (PField g :: r)) with (g :: fields r).
    intros [->|Hin]; [apply contains_here|].
    apply contains_app_r. by apply IH.
Qed.

(** X15. The composed prompt contains the text of each of the four fields,
    whatever their values, in both variants. *)
Theorem X15_prompt_mentions_fields (topic subject teacher clas : pyval) :
  (exists prompt,
      py_format Main.SYSTEM_PROMPT (prompt_kwargs topic subject teacher clas) = Ret prompt
      /\ contains (py_str topic) prompt = true
      /\ contains (py_str subject) prompt = true
      /\ contains (py_str teacher) prompt = true
      /\ contains (py_str clas) prompt = true)
  /\ (exists prompt,
         py_format Adk.SYSTEM_PROMPT_TMPL (prompt_kwargs topic subject teacher clas)
         = Ret prompt
         /\ contains (py_str topic) prompt = true
         /\ contains (py_str subject) prompt = true
         /\ contains (py_str teacher) prompt = true
         /\ contains (py_str clas) prompt = true).
Proof.
  destruct templates_scan as [(ps1 & Hs1 & Hf1) (ps2 & Hs2 & Hf2)].
  assert (Hall : forall ps,
             (forall f, In f (fields ps) <-> In f prompt_fields) ->
             contains (py_str topic) (render (prompt_value topic subject teacher clas) ps)
             = true
             /\ contains (py_str subject)
                         (render (prompt_value topic subject teacher clas) ps) = true
             /\ contains (py_str teacher)
                         (render (prompt_value topic subject teacher clas) ps) = true
             /\ contains (py_str clas)
                         (render (prompt_value topic subject teacher clas) ps) = true).
  { intros ps Hf.
    pose proof (render_contains (prompt_value topic subject teacher clas) ps) as H.
    repeat split.
    - apply (H (lit "TOPIC")), Hf. unfold prompt_fields. simpl. tauto.
    - apply (H (lit "SUBJECT")), Hf. unfold prompt_fields. simpl. tauto.
    - apply (H (lit "TEACHER")), Hf. unfold prompt_fields. simpl. tauto.
    - apply (H (lit "CLASS")), Hf. unfold prompt_fields. simpl. tauto. }
  split.
  - destruct (main_prompt_total topic subject teacher clas) as (ps & Hs & Hp).
    rewrite Hs1 in Hs. inversion Hs; subst ps.
    eexists. split; [exact Hp|]. by apply Hall.
  - destruct (adk_prompt_total topic subject teacher clas) as (ps & Hs & Hp).
    rewrite Hs2 in Hs. inversion Hs; subst ps.
    eexists. split; [exact Hp|]. by apply Hall.
Qed.

(** ** Phone normalisation, continued *)

Lemma lstrip_plus_idempotent (s : pystr) :
  lstrip [plus_sign] (lstrip [plus_sign] s) = lstrip [plus_sign] s.
Proof.
  unfold lstrip. induction s as [|c r IH]; [reflexivity|].
  simpl. destruct (c =? plus_sign) eqn:Hc; simpl; [exact IH|].
  by rewrite Hc.
Qed.

(** X16. Normalisation removes the leading plus signs and nothing else: the
    cell is some plus signs followed by the normalised phone, spaces, dashes
    and inner plus signs stay, and normalising twice changes nothing.  The
    result is thus not always digits only. *)
Theorem X16_normalisation_only_strips_plus (s : pystr) :
  (exists k, s = repeat plus_sign k ++ lstrip [plus_sign] s)
  /\ starts_with [plus_sign] (lstrip [plus_sign] s) = false
  /\ lstrip [plus_sign] (lstrip [plus_sign] s) = lstrip [plus_sign] s
  /\ (starts_with [plus_sign] s = false -> lstrip [plus_sign] s = s)
  /\ lstrip [plus_sign] (lit "+91 98765-43+210") = lit "91 98765-43+210".
Proof.
  split; [apply lstrip_plus_decompose|].
  split.
  { destruct (lstrip [plus_sign] s) as [|c r] eqn:Hs; [reflexivity|].
    apply lstrip_plus_head in Hs. cbn [starts_with]. apply N.eqb_neq in Hs.
    rewrite N.eqb_sym, Hs. reflexivity. }
  split; [apply lstrip_plus_idempotent|].
  split; [|vm_compute; reflexivity].
  destruct s as [|c r]; [reflexivity|].
  unfold lstrip. cbn [starts_with lstrip_by existsb]. rewrite N.eqb_sym.
  destruct (c =? plus_sign); simpl; [discriminate|reflexivity].
Qed.

(** X17. Two roster entries get the same push identifier exactly when their
    normalised phones are equal, in both variants. *)
Theorem X17_push_jid_injective (s1 s2 : student) :
  (Main.push_jid s1 = Main.push_jid s2 <-> phone s1 = phone s2)
  /\ (Adk.push_jid s1 = Adk.push_jid s2 <-> phone s1 = phone s2).
Proof.
  unfold Main.push_jid, Adk.push_jid, Adk.USER_ID_HEADER. split; split.
  - apply app_inv_head.
  - by intros ->.
  - intros H. apply app_inv_head in H. by apply app_inv_tail in H.
  - by intros ->.
Qed.

(** ** Start-up and lookups *)

(** X18. The start-up of the ADK variant, once the course plan is read:
    with a lesson today it returns that lesson as [data] together with the
    system prompt composed from it, and composing never fails; without a
    lesson it raises [TypeError].  Two calls have been made by then, the
    authorisation and the read. *)
Theorem X18_agent_setup_outcome (E : env) (st : state) (rows : list row) :
  authorize E (trace st) = None ->
  get_all_records E (trace st ++ [EAuthorize]) (COURSE_SHEET E) = Ret rows ->
  added_by (Adk.agent_setup E) st = [EAuthorize; ERead (COURSE_SHEET E)]
  /\ match find_today (today E) rows with
     | Some rec =>
         exists prompt,
           fst (Adk.agent_setup E st) = Ret (rec, prompt)
           /\ py_format Adk.SYSTEM_PROMPT_TMPL
                        (prompt_kwargs (topic rec) (subject rec) (teacher rec) (clas rec))
              = Ret prompt
     | None =>
         fst (Adk.agent_setup E st)
         = Exc (Exn TypeError (lit "'NoneType' object is not subscriptable"))
     end.
Proof.
  intros Ha Hr.
  unfold added_by, Adk.agent_setup, make_gspread, today_topic, read_sheet.
  run_monad. rewrite Ha. fields_of_state. rewrite Hr. fields_of_state.
  destruct (find_today (today E) rows) as [rec|]; fields_of_state.
  - destruct (adk_prompt_total (topic rec) (subject rec) (teacher rec) (clas rec))
      as (ps & _ & Hp).
    rewrite Hp. fields_of_state. rewrite <- ?app_assoc. rewrite drop_app_length.
    split; [reflexivity|]. eexists. split; reflexivity.
  - rewrite <- ?app_assoc. rewrite drop_app_length. split; reflexivity.
Qed.

Lemma X18_witness :
  added_by (Adk.agent_setup monday_env) st0 = [EAuthorize; ERead (COURSE_SHEET monday_env)]
  /\ match find_today (today monday_env) course_plan with
     | Some rec =>
         exists prompt,
           fst (Adk.agent_setup monday_env st0) = Ret (rec, prompt)
           /\ py_format Adk.SYSTEM_PROMPT_TMPL
                        (prompt_kwargs (topic rec) (subject rec) (teacher rec) (clas rec))
              = Ret prompt
     | None =>
         fst (Adk.agent_setup monday_env st0)
         = Exc (Exn TypeError (lit "'NoneType' object is not subscriptable"))
     end.
Proof.
  apply (X18_agent_setup_outcome monday_env st0 course_plan); vm_compute; reflexivity.
Defined.

(** X19. The body of a private message in [main.py]: a message without a
    body is handled as the empty text; a body that is [None] makes the handler
    raise [AttributeError] before any external call, so the sender gets no
    reply.  The ADK variant drops both without a call. *)
Theorem X19_body_none_or_absent (E : env) (st : state) (m : message) :
  isGroupMsg m = false ->
  (msg_body m = BodyNone ->
   Main.incoming_listener E (Some m) st
   = (Exc (Exn AttributeError (lit "'NoneType' object has no attribute 'strip'")), st)
   /\ Adk.handle_message E (Some m) st = (Ret tt, st))
  /\ (msg_body m = BodyAbsent ->
      Main.incoming_listener E (Some m) st
      = Main.incoming_listener E (Some (Message (msg_from m) (msg_id m) (BodyText []) false))
                                 st
      /\ Adk.handle_message E (Some m) st = (Ret tt, st)).
Proof.
  intros Hg. split; intros Hb.
  - unfold Main.incoming_listener, Adk.handle_message. rewrite Hg, Hb. split; reflexivity.
  - unfold Main.incoming_listener, Adk.handle_message. rewrite Hg, Hb. split; reflexivity.
Qed.

Lemma X19_witness :
  Main.incoming_listener monday_env (Some none_msg) st0
  = (Exc (Exn AttributeError (lit "'NoneType' object has no attribute 'strip'")), st0)
  /\ Adk.handle_message monday_env (Some none_msg) st0 = (Ret tt, st0).
Proof.
  apply (proj1 (X19_body_none_or_absent monday_env st0 none_msg eq_refl)). reflexivity.
Defined.


